(** * pybullet_ros: the simulation loop controller

    A shallow embedding of [ros/src/pybullet_ros/pybullet_ros.py], the class
    [pyBulletRosWrapper], and the properties of its control cycle, of its
    service handlers and of its start-up.

    The class talks to three outside parties: the physics engine ([self.pb],
    the [pybullet] module), the middleware ([rospy]: parameter server, clock,
    publisher, rate) and the plugin objects.  None of them is part of the
    file; they are taken as an interface ([External]), the state behind them
    as an abstract world [W].  Every call that crosses that interface is
    written to a trace, with its arguments and with the value it returned, so
    that "what was called, with what, in which order" can be stated.

    The methods are written in a state-and-exception monad over the record
    [Sys]: the object's attributes, the world, the parameter server, the
    shutdown flag and the trace. *)

From Stdlib Require Import ZArith List String Ascii Bool Lia FinFun.
From Stdlib Require Import Strings.Byte.
From Stdlib Require Import PrimFloat.
Import ListNotations.

Set Warnings "-inexact-float".
Set Implicit Arguments.
Open Scope string_scope.
Open Scope list_scope.
Open Scope Z_scope.

(** ** Python values *)

(** The values that travel through the parameter server and into the calls
    of the physics engine.  Python is dynamically typed and the code passes
    parameters on without looking at them, so does the model. *)
Inductive PyVal : Type :=
| PyNone
| PyBool (b : bool)
| PyInt (z : Z)
| PyFloat (f : float)
| PyStr (s : string)
| PyDict (items : list (string * string)).

(** Truth value of an object, as [if x:] and [not x] take it. *)
Definition truthy (v : PyVal) : bool :=
  match v with
  | PyNone => false
  | PyBool b => b
  | PyInt z => negb (z =? 0)
  | PyFloat f => negb (PrimFloat.eqb f 0%float)
  | PyStr s => negb (String.eqb s EmptyString)
  | PyDict items => match items with [] => false | _ :: _ => true end
  end.

(** [x == None]. *)
Definition eq_None (v : PyVal) : bool :=
  match v with PyNone => true | _ => false end.

(** A Python [str] is a sequence of Unicode code points.  The literals of the
    source are ASCII and written as Rocq strings; text that comes out of
    [bytes.decode] is kept as its code points. *)
Definition text : Type := list Z.

(** ** [bytes.decode('utf-8')]

    The strict decoder: shortest form only, no surrogates, nothing above
    U+10FFFF, no truncated sequence.  [None] stands for the
    [UnicodeDecodeError] Python raises. *)
Definition byte_val (b : byte) : Z := Z.of_N (Byte.to_N b).

Definition is_cont (x : Z) : bool := (0x80 <=? x) && (x <=? 0xBF).

Definition cont_bits (x : Z) : Z := Z.land x 0x3F.

Fixpoint decode_utf8 (bs : list byte) : option text :=
  match bs with
  | [] => Some []
  | b0 :: t0 =>
    let x0 := byte_val b0 in
    if x0 <? 0x80 then option_map (cons x0) (decode_utf8 t0)
    else if x0 <? 0xC2 then None
    else if x0 <? 0xE0 then
      match t0 with
      | b1 :: t1 =>
        let x1 := byte_val b1 in
        if is_cont x1
        then option_map
               (cons (Z.lor (Z.shiftl (Z.land x0 0x1F) 6) (cont_bits x1)))
               (decode_utf8 t1)
        else None
      | _ => None
      end
    else if x0 <? 0xF0 then
      match t0 with
      | b1 :: b2 :: t2 =>
        let x1 := byte_val b1 in
        let x2 := byte_val b2 in
        let cp := Z.lor (Z.shiftl (Z.land x0 0x0F) 12)
                        (Z.lor (Z.shiftl (cont_bits x1) 6) (cont_bits x2)) in
        if is_cont x1 && is_cont x2 && (0x800 <=? cp)
           && negb ((0xD800 <=? cp) && (cp <=? 0xDFFF))
        then option_map (cons cp) (decode_utf8 t2)
        else None
      | _ => None
      end
    else if x0 <? 0xF5 then
      match t0 with
      | b1 :: b2 :: b3 :: t3 =>
        let x1 := byte_val b1 in
        let x2 := byte_val b2 in
        let x3 := byte_val b3 in
        let cp := Z.lor (Z.shiftl (Z.land x0 0x07) 18)
                        (Z.lor (Z.shiftl (cont_bits x1) 12)
                               (Z.lor (Z.shiftl (cont_bits x2) 6)
                                      (cont_bits x3))) in
        if is_cont x1 && is_cont x2 && is_cont x3
           && (0x10000 <=? cp) && (cp <=? 0x10FFFF)
        then option_map (cons cp) (decode_utf8 t3)
        else None
      | _ => None
      end
    else None
  end.

(** ** Python dictionaries

    A [dict] keeps its keys in insertion order and [for k in d] walks them in
    that order, so a dictionary is an association list; [dict_set] is
    [d[k] = v]: it overwrites in place when the key is there and appends
    otherwise. *)
Definition dict (V : Type) : Type := list (Z * V).

Fixpoint dict_get {V} (d : dict V) (k : Z) : option V :=
  match d with
  | [] => None
  | (k', v) :: d' => if k' =? k then Some v else dict_get d' k
  end.

Fixpoint dict_set {V} (d : dict V) (k : Z) (v : V) : dict V :=
  match d with
  | [] => [(k, v)]
  | (k', v') :: d' =>
    if k' =? k then (k', v) :: d' else (k', v') :: dict_set d' k v
  end.

Definition dict_keys {V} (d : dict V) : list Z := map fst d.

(** The values, read as the code reads them: [d[k]] for each key in
    iteration order. *)
Definition dict_values {V} (d : dict V) : list V :=
  flat_map (fun k => match dict_get d k with Some v => [v] | None => [] end)
           (dict_keys d).

(** [range(lo, hi)]. *)
Definition range (lo hi : Z) : list Z :=
  map (fun i => lo + Z.of_nat i) (seq 0 (Z.to_nat (hi - lo))).

(** ** Data exchanged with the outside *)

(** The fields of the tuple [getJointInfo] returns that the code reads:
    [info[1]] (name, as bytes) and [info[2]] (type code). *)
Record JointInfo : Type := mkJointInfo {
  jointName : list byte;
  jointType : Z
}.

(** The tuple [getJointState] returns:
    position, velocity, reaction forces, applied motor torque. *)
Record JointStateTuple : Type := mkJointStateTuple {
  jointPosition : float;
  jointVelocity : float;
  jointReactionForces : list float;
  appliedJointMotorTorque : float
}.

Definition Quaternion : Type := (float * float * float * float)%type.

(** Keyword arguments of the robot's [loadURDF] call. *)
Record URDFArgs : Type := mkURDFArgs {
  basePosition : list PyVal;
  baseOrientation : Quaternion;
  useFixedBase : PyVal;
  flags : Z
}.

Record RosTime : Type := mkRosTime { secs : Z; nsecs : Z }.

(** [sensor_msgs/JointState]. *)
Record JointState : Type := mkJointState {
  stamp : RosTime;
  name : list text;
  position : list float;
  velocity : list float;
  effort : list float
}.

(** A plugin object: what it was built from. *)
Record Plugin : Type := mkPlugin {
  plugin_module : string;
  plugin_class : string;
  plugin_robot : Z;
  plugin_rev_joints : dict text
}.

(** ** The trace *)
Inductive Event : Type :=
| Print (s : string)
| Loginfo (fmt : string) (args : list string)
| Logwarn (msg : string)
| InitNode (node : string)
| SignalShutdown (reason : string)
| NewPublisher (topic : string) (queue_size : Z)
| NewService (srv : string)
| Connect (mode : Z) (ret : Z)
| Disconnect
| SetAdditionalSearchPath
| GetQuaternionFromEuler (euler : list PyVal) (ret : Quaternion)
| SetGravity (gx gy gz : PyVal)
| LoadURDF (path : PyVal) (kw : option URDFArgs) (ret : Z)
| SetRealTimeSimulation (enable : Z)
| ResetSimulation
| GetNumJoints (body : Z) (ret : Z)
| GetJointInfo (body idx : Z) (ret : JointInfo)
| GetJointState (body idx : Z) (ret : JointStateTuple)
| StepSimulation
| TimeNow (ret : RosTime)
| Publish (msg : JointState)
| PluginNew (p : Plugin)
| PluginExecute (p : Plugin)
| RateSleep.

Definition is_Publish (e : Event) : bool :=
  match e with Publish _ => true | _ => false end.
Definition is_StepSimulation (e : Event) : bool :=
  match e with StepSimulation => true | _ => false end.
Definition is_PluginExecute (e : Event) : bool :=
  match e with PluginExecute _ => true | _ => false end.
Definition is_SetGravity (e : Event) : bool :=
  match e with SetGravity _ _ _ => true | _ => false end.
Definition is_LoadURDF (e : Event) : bool :=
  match e with LoadURDF _ _ _ => true | _ => false end.
(** The load of the ground plane is the call without keyword arguments, the
    load of the robot the one with them. *)
Definition is_plane_load (e : Event) : bool :=
  match e with LoadURDF _ None _ => true | _ => false end.
Definition is_robot_load (e : Event) : bool :=
  match e with LoadURDF _ (Some _) _ => true | _ => false end.

Definition count_events (p : Event -> bool) (tr : list Event) : nat :=
  List.length (filter p tr).

(** The handles the engine returned for the loads of a robot. *)
Definition robot_handles (tr : list Event) : list Z :=
  flat_map (fun e => match e with
                     | LoadURDF _ (Some _) h => [h]
                     | _ => []
                     end) tr.

(** Position of the first event that satisfies [p]. *)
Fixpoint first_index (p : Event -> bool) (tr : list Event) : option nat :=
  match tr with
  | [] => None
  | e :: tr' => if p e then Some O else option_map S (first_index p tr')
  end.

(** Some [a]-event exists and it comes before every [b]-event. *)
Definition occurs_before (a b : Event -> bool) (tr : list Event) : Prop :=
  exists i, first_index a tr = Some i /\
            forall j, first_index b tr = Some j -> (i < j)%nat.

(** ** The outside world *)

(** What the code needs from [pybullet], [rospy] and the plugins.  The
    constants are pybullet's; the operations take the world and give the
    returned value and the world after the call.  A call that raises inside
    the engine or the middleware (a file that cannot be loaded, a plugin
    that fails) is not a run of this interface: what is proved of a method
    is proved of the runs in which its outside calls return. *)
Class External (W : Type) : Type := {
  GUI : Z;
  DIRECT : Z;
  URDF_USE_INERTIA_FROM_FILE : Z;
  URDF_USE_SELF_COLLISION : Z;
  pb_connect : Z -> W -> Z * W;
  pb_disconnect : W -> W;
  pb_setAdditionalSearchPath : W -> W;
  pb_getQuaternionFromEuler : list PyVal -> Quaternion;
  pb_setGravity : PyVal -> PyVal -> PyVal -> W -> W;
  pb_loadURDF : PyVal -> option URDFArgs -> W -> Z * W;
  pb_setRealTimeSimulation : Z -> W -> W;
  pb_resetSimulation : W -> W;
  pb_getNumJoints : Z -> W -> Z;
  pb_getJointInfo : Z -> Z -> W -> JointInfo;
  pb_getJointState : Z -> Z -> W -> JointStateTuple;
  pb_stepSimulation : W -> W;
  rospy_Time_now : W -> RosTime;
  rospy_Rate_sleep : PyVal -> W -> W;
  plugin_init : Plugin -> W -> W;
  plugin_execute : Plugin -> W -> W
}.

(** ** The object and the system state *)

(** The attributes of [pyBulletRosWrapper].  [pause_simulation] is read only
    through [not self.pause_simulation], so it is kept as its truth value. *)
Record pyBulletRosWrapper : Type := mkWrapper {
  loop_rate : PyVal;
  pause_simulation : bool;
  robot : Z;
  joint_index_name_dic : dict text;
  plugins : list Plugin
}.

Record Sys (W : Type) : Type := mkSys {
  self : pyBulletRosWrapper;
  world : W;
  params : list (string * PyVal);
  shutdown : bool;
  trace : list Event
}.

Inductive Exn : Type := UnicodeDecodeError | KeyError | TypeError.

Inductive Res (A : Type) : Type :=
| Ok (a : A)
| Raise (e : Exn).
Arguments Raise {A} e.

Definition M (W A : Type) : Type := Sys W -> Res A * Sys W.

Definition ret {W A} (a : A) : M W A := fun s => (Ok a, s).

Definition bind {W A B} (m : M W A) (k : A -> M W B) : M W B :=
  fun s => match m s with
           | (Ok a, s') => k a s'
           | (Raise e, s') => (Raise e, s')
           end.

Definition raise {W A} (e : Exn) : M W A := fun s => (Raise e, s).

Declare Scope py_scope.
Delimit Scope py_scope with py.
Notation "x <- m ;; k" := (bind m (fun x => k))
  (at level 61, m at next level, right associativity) : py_scope.
Notation "m ;; k" := (bind m (fun _ => k))
  (at level 61, right associativity) : py_scope.
Open Scope py_scope.

(** [for x in xs: body(x)]. *)
Fixpoint for_each {W A} (xs : list A) (body : A -> M W unit) : M W unit :=
  match xs with
  | [] => ret tt
  | x :: xs' => body x ;; for_each xs' body
  end.

(** A loop that carries a local variable. *)
Fixpoint for_fold {W A B} (xs : list A) (body : B -> A -> M W B) (b : B)
  : M W B :=
  match xs with
  | [] => ret b
  | x :: xs' => b' <- body b x ;; for_fold xs' body b'
  end.

(** ** The class [pyBulletRosWrapper] *)

Definition set_loop_rate (v : PyVal) (o : pyBulletRosWrapper) :=
  mkWrapper v (pause_simulation o) (robot o) (joint_index_name_dic o)
            (plugins o).
Definition set_pause_simulation (b : bool) (o : pyBulletRosWrapper) :=
  mkWrapper (loop_rate o) b (robot o) (joint_index_name_dic o) (plugins o).
Definition set_robot (r : Z) (o : pyBulletRosWrapper) :=
  mkWrapper (loop_rate o) (pause_simulation o) r (joint_index_name_dic o)
            (plugins o).
Definition set_joint_index_name_dic (d : dict text) (o : pyBulletRosWrapper) :=
  mkWrapper (loop_rate o) (pause_simulation o) (robot o) d (plugins o).
Definition set_plugins (ps : list Plugin) (o : pyBulletRosWrapper) :=
  mkWrapper (loop_rate o) (pause_simulation o) (robot o)
            (joint_index_name_dic o) ps.

(** First binding of a name, in the parameter server or in a dictionary
    parameter. *)
Fixpoint str_lookup {V} (k : string) (kvs : list (string * V)) : option V :=
  match kvs with
  | [] => None
  | (k', v) :: kvs' => if String.eqb k' k then Some v else str_lookup k kvs'
  end.

(** [rospy.get_param(name, default)] on the parameters [ps]. *)
Definition param_value (ps : list (string * PyVal)) (name : string)
           (default : PyVal) : PyVal :=
  match str_lookup name ps with
  | Some v => v
  | None => default
  end.

(** The escape character of the two colour sequences [__init__] prints. *)
Definition ESC : string := String (ascii_of_nat 27) EmptyString.

(** How the control cycle ended: the node was shut down and the engine
    disconnected, or the iterations granted to the model were used up with
    the node still running. *)
Inductive LoopExit : Type := Disconnected | StillRunning.

(** The three services of the node. *)
Inductive Request : Type :=
| reset_simulation
| pause_physics
| unpause_physics.

(** A step of a scenario: a service request comes in, or the control cycle
    runs one iteration. *)
Inductive Step : Type :=
| Incoming (r : Request)
| Iteration.

Section Controller.
Context {W : Type} {Ext : External W}.

(** *** Primitive actions *)

Definition emit (e : Event) : M W unit :=
  fun s => (Ok tt, mkSys (self s) (world s) (params s) (shutdown s)
                         (trace s ++ [e])).

(** A call into the outside that returns a value and changes the world. *)
Definition call {A} (f : W -> A * W) : M W A :=
  fun s => (Ok (fst (f (world s))),
            mkSys (self s) (snd (f (world s))) (params s) (shutdown s)
                  (trace s)).

(** A call that only changes the world. *)
Definition act (f : W -> W) : M W unit :=
  fun s => (Ok tt, mkSys (self s) (f (world s)) (params s) (shutdown s)
                         (trace s)).

(** A query. *)
Definition ask {A} (f : W -> A) : M W A :=
  fun s => (Ok (f (world s)), s).

(** [self.x]. *)
Definition attr {A} (f : pyBulletRosWrapper -> A) : M W A :=
  fun s => (Ok (f (self s)), s).

(** [self.x = v]. *)
Definition assign (f : pyBulletRosWrapper -> pyBulletRosWrapper)
  : M W unit :=
  fun s => (Ok tt, mkSys (f (self s)) (world s) (params s) (shutdown s)
                         (trace s)).

(** *** rospy *)

Definition get_param (name : string) (default : PyVal) : M W PyVal :=
  fun s => (Ok (param_value (params s) name default), s).

Definition is_shutdown : M W bool := fun s => (Ok (shutdown s), s).

Definition signal_shutdown (reason : string) : M W unit :=
  fun s => (Ok tt, mkSys (self s) (world s) (params s) true
                         (trace s ++ [SignalShutdown reason])).

Definition loginfo (fmt : string) (args : list string) : M W unit :=
  emit (Loginfo fmt args).

Definition logwarn (msg : string) : M W unit := emit (Logwarn msg).

Definition print (s : string) : M W unit := emit (Print s).

Definition Time_now : M W RosTime :=
  t <- ask rospy_Time_now ;; emit (TimeNow t) ;; ret t.

Definition Publisher (topic : string) (queue_size : Z) : M W unit :=
  emit (NewPublisher topic queue_size).

Definition Service (srv : string) : M W unit := emit (NewService srv).

Definition publish (msg : JointState) : M W unit := emit (Publish msg).

Definition Rate_sleep (rate : PyVal) : M W unit :=
  act (rospy_Rate_sleep rate) ;; emit RateSleep.

(** *** pybullet *)

Definition connect (mode : Z) : M W Z :=
  c <- call (pb_connect mode) ;; emit (Connect mode c) ;; ret c.

Definition disconnect : M W unit := act pb_disconnect ;; emit Disconnect.

Definition setAdditionalSearchPath : M W unit :=
  act pb_setAdditionalSearchPath ;; emit SetAdditionalSearchPath.

Definition getQuaternionFromEuler (euler : list PyVal) : M W Quaternion :=
  let q := pb_getQuaternionFromEuler euler in
  emit (GetQuaternionFromEuler euler q) ;; ret q.

Definition setGravity (gx gy gz : PyVal) : M W unit :=
  act (pb_setGravity gx gy gz) ;; emit (SetGravity gx gy gz).

Definition loadURDF (path : PyVal) (kw : option URDFArgs) : M W Z :=
  h <- call (pb_loadURDF path kw) ;; emit (LoadURDF path kw h) ;; ret h.

Definition setRealTimeSimulation (enable : Z) : M W unit :=
  act (pb_setRealTimeSimulation enable) ;;
  emit (SetRealTimeSimulation enable).

Definition resetSimulation : M W unit :=
  act pb_resetSimulation ;; emit ResetSimulation.

Definition getNumJoints (body : Z) : M W Z :=
  n <- ask (pb_getNumJoints body) ;; emit (GetNumJoints body n) ;; ret n.

Definition getJointInfo (body idx : Z) : M W JointInfo :=
  info <- ask (pb_getJointInfo body idx) ;;
  emit (GetJointInfo body idx info) ;; ret info.

Definition getJointState (body idx : Z) : M W JointStateTuple :=
  js <- ask (pb_getJointState body idx) ;;
  emit (GetJointState body idx js) ;; ret js.

Definition stepSimulation : M W unit :=
  act pb_stepSimulation ;; emit StepSimulation.

(** *** plugins *)

Definition new_plugin (p : Plugin) : M W Plugin :=
  act (plugin_init p) ;; emit (PluginNew p) ;; ret p.

Definition execute (p : Plugin) : M W unit :=
  act (plugin_execute p) ;; emit (PluginExecute p).

(** *** The methods *)

(** One round of the loop of [get_all_revolute_joint_names]. *)
Definition revolute_joint_step (body : Z) (d : dict text) (joint_index : Z)
  : M W (dict text) :=
  info <- getJointInfo body joint_index ;;
  if jointType info =? 0
  then match decode_utf8 (jointName info) with
       | Some nm => ret (dict_set d joint_index nm)
       | None => raise UnicodeDecodeError
       end
  else ret d.

(** What that round adds to the table when it does not raise. *)
Definition revolute_entry (body : Z) (w : W) (joint_index : Z)
  : dict text :=
  let info := pb_getJointInfo body joint_index w in
  if jointType info =? 0
  then match decode_utf8 (jointName info) with
       | Some nm => [(joint_index, nm)]
       | None => []
       end
  else [].

Definition get_all_revolute_joint_names : M W (dict text) :=
  body <- attr robot ;;
  n <- getNumJoints body ;;
  for_fold (range 0 n) (revolute_joint_step body) [].

Definition start_gui (gui : PyVal) : M W Z :=
  if truthy gui
  then loginfo "Running pybullet with gui" [] ;;
       loginfo "-------------------------" [] ;;
       connect GUI
  else loginfo "Running pybullet without gui" [] ;;
       loginfo "-------------------------" [] ;;
       connect DIRECT.

Definition init_pybullet_robot : M W Z :=
  urdf_path <- get_param "~robot_urdf_path" PyNone ;;
  (if eq_None urdf_path
   then signal_shutdown
          "mandatory param robot_urdf_path not set, will exit now"
   else ret tt) ;;
  robot_pose_x <- get_param "~robot_pose_x" (PyFloat 0.0) ;;
  robot_pose_y <- get_param "~robot_pose_y" (PyFloat 0.0) ;;
  robot_pose_z <- get_param "~robot_pose_z" (PyFloat 1.0) ;;
  robot_pose_yaw <- get_param "~robot_pose_yaw" (PyFloat 0.0) ;;
  robot_spawn_orientation <-
    getQuaternionFromEuler [PyFloat 0.0; PyFloat 0.0; robot_pose_yaw] ;;
  fixed_base <- get_param "~fixed_base" (PyBool false) ;;
  use_inertia <- get_param "~use_intertia_from_file" (PyBool false) ;;
  let urdf_flags :=
    if truthy use_inertia
    then Z.lor URDF_USE_INERTIA_FROM_FILE URDF_USE_SELF_COLLISION
    else URDF_USE_SELF_COLLISION in
  gravity <- get_param "~gravity" (PyFloat (-9.81)) ;;
  setGravity (PyInt 0) (PyInt 0) gravity ;;
  loadURDF (PyStr "plane.urdf") None ;;
  setRealTimeSimulation 0 ;;
  loadURDF urdf_path
           (Some (mkURDFArgs [robot_pose_x; robot_pose_y; robot_pose_z]
                             robot_spawn_orientation fixed_base
                             urdf_flags)).

(** The class body defines [handle_reset_simulation] twice; the second
    definition replaces the first, and it is the one the service is bound
    to. *)
Definition handle_reset_simulation : M W (list PyVal) :=
  loginfo "reseting simulation now" [] ;;
  assign (set_pause_simulation true) ;;
  resetSimulation ;;
  init_pybullet_robot ;;
  assign (set_pause_simulation false) ;;
  ret [].

Definition handle_pause_physics : M W (list PyVal) :=
  loginfo "pausing simulation" [] ;;
  assign (set_pause_simulation false) ;;
  ret [].

Definition handle_unpause_physics : M W (list PyVal) :=
  loginfo "unpausing simulation" [] ;;
  assign (set_pause_simulation true) ;;
  ret [].

(** One round of the loop of [publish_joint_states]. *)
Definition fill_joint_msg (body : Z) (d : dict text) (joint_msg : JointState)
           (joint_index : Z) : M W JointState :=
  joint_state <- getJointState body joint_index ;;
  match dict_get d joint_index with
  | None => raise KeyError
  | Some nm =>
    ret (mkJointState
           (stamp joint_msg)
           (name joint_msg ++ [nm])
           (position joint_msg ++ [jointPosition joint_state])
           (velocity joint_msg ++ [jointVelocity joint_state])
           (effort joint_msg ++ [appliedJointMotorTorque joint_state]))
  end.

Definition publish_joint_states : M W unit :=
  d <- attr joint_index_name_dic ;;
  body <- attr robot ;;
  joint_msg <- for_fold (dict_keys d) (fill_joint_msg body d)
                        (mkJointState (mkRosTime 0 0) [] [] [] []) ;;
  now <- Time_now ;;
  publish (mkJointState now (name joint_msg) (position joint_msg)
                        (velocity joint_msg) (effort joint_msg)).

(** The body of the [while] loop of [start_pybullet_ros_wrapper]. *)
Definition loop_body : M W unit :=
  paused <- attr pause_simulation ;;
  (if negb paused
   then publish_joint_states ;;
        tasks <- attr plugins ;;
        for_each tasks execute ;;
        stepSimulation
   else ret tt) ;;
  rate <- attr loop_rate ;;
  Rate_sleep rate.

(** [while not rospy.is_shutdown(): ...], then [disconnect]; [fuel] bounds
    the number of iterations the model runs. *)
Fixpoint start_pybullet_ros_wrapper (fuel : nat) : M W LoopExit :=
  match fuel with
  | O => ret StillRunning
  | S fuel' =>
    stop <- is_shutdown ;;
    if stop
    then disconnect ;; ret Disconnected
    else loop_body ;; start_pybullet_ros_wrapper fuel'
  end.

(** The loop of [__init__] over the plugin dictionary. *)
Definition load_plugin (items : list (string * string)) (key : string)
  : M W unit :=
  match str_lookup key items with
  | None => raise KeyError
  | Some cls =>
    loginfo "loading %s class from %s plugin" [cls; key] ;;
    body <- attr robot ;;
    d <- attr joint_index_name_dic ;;
    obj <- new_plugin (mkPlugin key cls body d) ;;
    tasks <- attr plugins ;;
    assign (set_plugins (tasks ++ [obj]))
  end.

Definition __init__ : M W unit :=
  Publisher "joint_states" 1 ;;
  rate <- get_param "~loop_rate" (PyFloat 80.0) ;;
  assign (set_loop_rate rate) ;;
  is_gui_needed <- get_param "~pybullet_gui" (PyBool true) ;;
  pause <- get_param "~pause_simulation" (PyBool false) ;;
  assign (set_pause_simulation (truthy pause)) ;;
  print (ESC ++ "[34m") ;;
  start_gui is_gui_needed ;;
  Service "~reset_simulation" ;;
  Service "~pause_physics" ;;
  Service "~unpause_physics" ;;
  setAdditionalSearchPath ;;
  body <- init_pybullet_robot ;;
  assign (set_robot body) ;;
  d <- get_all_revolute_joint_names ;;
  assign (set_joint_index_name_dic d) ;;
  assign (set_plugins []) ;;
  dic <- get_param "~plugins" (PyDict []) ;;
  (if negb (truthy dic)
   then logwarn "No plugins found, forgot to set param ~plugins?"
   else ret tt) ;;
  print (ESC ++ "[0m") ;;
  match dic with
  | PyDict items => for_each (map fst items) (load_plugin items)
  | PyStr EmptyString => ret tt
  | _ => raise TypeError
  end ;;
  loginfo "pybullet ROS wrapper started" [].

Definition main (fuel : nat) : M W LoopExit :=
  emit (InitNode "pybullet_ros") ;;
  __init__ ;;
  start_pybullet_ros_wrapper fuel.

(** *** Scenarios *)

(** The callback a request is bound to. *)
Definition serve (r : Request) : M W (list PyVal) :=
  match r with
  | reset_simulation => handle_reset_simulation
  | pause_physics => handle_pause_physics
  | unpause_physics => handle_unpause_physics
  end.

Definition run_step (st : Step) : M W unit :=
  match st with
  | Incoming r => serve r ;; ret tt
  | Iteration => loop_body
  end.

(** Requests are served between iterations of the control cycle. *)
Definition run_scenario (sc : list Step) : M W unit :=
  for_each sc run_step.

(** The events a computation adds to the trace. *)
Definition new_events {A} (m : M W A) (s : Sys W) : list Event :=
  skipn (List.length (trace s)) (trace (snd (m s))).

(** The joints the engine reports for a body: [getJointInfo] at every
    index below [getNumJoints]. *)
Definition joint_list (body : Z) (w : W) : list JointInfo :=
  map (fun i => pb_getJointInfo body i w) (range 0 (pb_getNumJoints body w)).

End Controller.

(** ** A small engine to run the controller on

    A deterministic stand-in for the outside world, used to evaluate the
    controller on concrete inputs.  The identifier of a body is the number
    of bodies loaded before it since the connection or the last reset, as
    in pybullet: a connection starts with an empty world and a reset empties
    it, and both restart the numbering at 0.  Every body reports the joints
    of one fixed robot model; a simulation step moves each joint by its
    velocity; the clock counts the sleeps of the control cycle. *)
Module Mock.

Record World : Type := mkWorld {
  bodies : list (Z * PyVal);
  next_body : Z;
  gravity : option PyVal;
  joints : list JointInfo;
  states : list JointStateTuple;
  steps : Z;
  slept : Z;
  plugin_runs : Z
}.

Definition no_joint : JointInfo := mkJointInfo [] 4.
Definition at_rest : JointStateTuple := mkJointStateTuple 0 0 [] 0.

Definition advance (js : JointStateTuple) : JointStateTuple :=
  mkJointStateTuple (PrimFloat.add (jointPosition js) (jointVelocity js))
                    (jointVelocity js) (jointReactionForces js)
                    (appliedJointMotorTorque js).

Definition load (path : PyVal) (kw : option URDFArgs) (w : World)
  : Z * World :=
  (next_body w,
   mkWorld (bodies w ++ [(next_body w, path)]) (next_body w + 1)
           (gravity w) (joints w) (states w) (steps w) (slept w)
           (plugin_runs w)).

Definition reset (w : World) : World :=
  mkWorld [] 0 None (joints w) (states w) 0 (slept w) (plugin_runs w).

Definition open_connection (mode : Z) (w : World) : Z * World :=
  (0, mkWorld [] 0 None (joints w) (states w) 0 (slept w) (plugin_runs w)).

Definition set_gravity (gx gy gz : PyVal) (w : World) : World :=
  mkWorld (bodies w) (next_body w) (Some gz) (joints w) (states w)
          (steps w) (slept w) (plugin_runs w).

Definition step (w : World) : World :=
  mkWorld (bodies w) (next_body w) (gravity w) (joints w)
          (map advance (states w)) (steps w + 1) (slept w)
          (plugin_runs w).

Definition sleep (rate : PyVal) (w : World) : World :=
  mkWorld (bodies w) (next_body w) (gravity w) (joints w) (states w)
          (steps w) (slept w + 1) (plugin_runs w).

Definition run_plugin (p : Plugin) (w : World) : World :=
  mkWorld (bodies w) (next_body w) (gravity w) (joints w) (states w)
          (steps w) (slept w) (plugin_runs w + 1).

#[export] Instance engine : External World := {
  GUI := 1;
  DIRECT := 2;
  URDF_USE_INERTIA_FROM_FILE := 2;
  URDF_USE_SELF_COLLISION := 8;
  pb_connect := open_connection;
  pb_disconnect := fun w => w;
  pb_setAdditionalSearchPath := fun w => w;
  pb_getQuaternionFromEuler := fun _ => (0, 0, 0, 1)%float;
  pb_setGravity := set_gravity;
  pb_loadURDF := load;
  pb_setRealTimeSimulation := fun _ w => w;
  pb_resetSimulation := reset;
  pb_getNumJoints := fun _ w => Z.of_nat (List.length (joints w));
  pb_getJointInfo := fun _ i w => nth (Z.to_nat i) (joints w) no_joint;
  pb_getJointState := fun _ i w => nth (Z.to_nat i) (states w) at_rest;
  pb_stepSimulation := step;
  rospy_Time_now := fun w => mkRosTime (slept w) 0;
  rospy_Rate_sleep := sleep;
  plugin_init := fun _ w => w;
  plugin_execute := run_plugin
}.

(** A robot with a revolute joint, a prismatic one, a second revolute one
    (its name is "e1" with an acute accent, two bytes for the first letter) and a fixed one. *)
Definition arm : list JointInfo :=
  [ mkJointInfo (list_byte_of_string "joint1") 0;
    mkJointInfo (list_byte_of_string "slider") 1;
    mkJointInfo [xc3; xa9; x31]%byte 0;
    mkJointInfo (list_byte_of_string "tool") 4 ].

Definition arm_states : list JointStateTuple :=
  [ mkJointStateTuple 0.5 0.25 [] 1.5;
    mkJointStateTuple 0 0 [] 0;
    mkJointStateTuple (-1) 0.125 [] 0;
    mkJointStateTuple 0 0 [] 0 ]%float.

Definition fresh (js : list JointInfo) (sts : list JointStateTuple)
  : World :=
  mkWorld [] 0 None js sts 0 0 0.

(** The object before [__init__] has assigned anything. *)
Definition blank : pyBulletRosWrapper := mkWrapper PyNone false 0 [] [].

Definition power_on (ps : list (string * PyVal)) (w : World) : Sys World :=
  mkSys blank w ps false [].

(** The node after start-up with the given parameters. *)
Definition booted (ps : list (string * PyVal)) (w : World) : Sys World :=
  snd (__init__ (power_on ps w)).

Definition launch_file : list (string * PyVal) :=
  [ ("~robot_urdf_path", PyStr "arm.urdf");
    ("~plugins", PyDict [("pybullet_ros.plugins.control", "Control");
                         ("pybullet_ros.plugins.odometry", "Odometry")]) ].

(** The same launch file with the simulation paused from the start. *)
Definition launch_file_paused : list (string * PyVal) :=
  ("~pause_simulation", PyBool true) :: launch_file.

(** A launch file that forgets the robot description. *)
Definition launch_file_no_robot : list (string * PyVal) :=
  [ ("~gravity", PyFloat (-1.62)) ].

(** A robot without revolute joints. *)
Definition cart : list JointInfo :=
  [ mkJointInfo (list_byte_of_string "slider") 1 ].

(** A joint whose name is not UTF-8. *)
Definition garbled : list JointInfo :=
  [ mkJointInfo [xff; x41]%byte 0 ].

(** The decoded names of the arm's revolute joints: "joint1" and "e1" with an acute accent,
    as code points. *)
Definition joint1 : text := [106; 111; 105; 110; 116; 49].
Definition e1 : text := [233; 49].

(** Three nodes after start-up: running, paused from the start, and one
    whose robot has no revolute joint. *)
Definition running_node : Sys World :=
  booted launch_file (fresh arm arm_states).

Definition paused_node : Sys World :=
  booted launch_file_paused (fresh arm arm_states).

Definition cart_node : Sys World :=
  booted launch_file (fresh cart [at_rest]).

(** A node switched on without a robot description. *)
Definition no_robot_node : Sys World :=
  power_on launch_file_no_robot (fresh arm arm_states).

(** A gripper: two revolute joints with plain ASCII names. *)
Definition gripper : list JointInfo :=
  [ mkJointInfo (list_byte_of_string "finger_left") 0;
    mkJointInfo (list_byte_of_string "finger_right") 0 ].

Definition gripper_node : Sys World :=
  booted launch_file (fresh gripper [at_rest; at_rest]).

(** A launch file that names the robot and nothing else. *)
Definition launch_file_bare : list (string * PyVal) :=
  [ ("~robot_urdf_path", PyStr "arm.urdf") ].

Definition bare_node : Sys World :=
  booted launch_file_bare (fresh arm arm_states).

(** A robot whose second joint has a name that is not UTF-8; the start-up
    of its node stops at the joint table. *)
Definition half_garbled : list JointInfo :=
  [ mkJointInfo (list_byte_of_string "a") 0;
    mkJointInfo [xff]%byte 0;
    mkJointInfo (list_byte_of_string "c") 0 ].

Definition half_garbled_node : Sys World :=
  booted launch_file (fresh half_garbled []).

(** A body without joints. *)
Definition brick_node : Sys World :=
  booted launch_file (fresh [] []).

(** The nodes before start-up. *)
Definition arm_switched_on : Sys World :=
  power_on launch_file (fresh arm arm_states).

Definition bare_switched_on : Sys World :=
  power_on launch_file_bare (fresh arm arm_states).

(** A launch file that asks for the direct mode. *)
Definition launch_file_headless : list (string * PyVal) :=
  ("~pybullet_gui", PyBool false) :: launch_file.

Definition headless_switched_on : Sys World :=
  power_on launch_file_headless (fresh arm arm_states).

(** A node whose shutdown has been requested. *)
Definition stopped_node : Sys World :=
  mkSys (self running_node) (world running_node) (params running_node) true
        (trace running_node).

End Mock.

(** ** More observations on traces and objects *)

Definition is_RateSleep (e : Event) : bool :=
  match e with RateSleep => true | _ => false end.
Definition is_Disconnect (e : Event) : bool :=
  match e with Disconnect => true | _ => false end.
Definition is_Connect (e : Event) : bool :=
  match e with Connect _ _ => true | _ => false end.
Definition is_ResetSimulation (e : Event) : bool :=
  match e with ResetSimulation => true | _ => false end.
Definition is_SignalShutdown (e : Event) : bool :=
  match e with SignalShutdown _ => true | _ => false end.
Definition is_GetJointState (e : Event) : bool :=
  match e with GetJointState _ _ _ => true | _ => false end.
Definition is_PluginNew (e : Event) : bool :=
  match e with PluginNew _ => true | _ => false end.
Definition is_Logwarn (e : Event) : bool :=
  match e with Logwarn _ => true | _ => false end.
Definition is_GetJointInfo (e : Event) : bool :=
  match e with GetJointInfo _ _ _ => true | _ => false end.

(** A call of the engine changes the world, or may: everything but the
    queries, the log and the middleware. *)
Definition is_engine_command (e : Event) : bool :=
  match e with
  | Connect _ _ | Disconnect | SetAdditionalSearchPath | SetGravity _ _ _
  | LoadURDF _ _ _ | SetRealTimeSimulation _ | ResetSimulation
  | StepSimulation => true
  | _ => false
  end.

(** An event without the handle the engine answered a load with: what the
    code asked for. *)
Definition erase_handle (e : Event) : Event :=
  match e with
  | LoadURDF path kw _ => LoadURDF path kw 0
  | _ => e
  end.


(** The attributes of the object other than the pause flag. *)
Definition configuration (o : pyBulletRosWrapper)
  : PyVal * Z * dict text * list Plugin :=
  (loop_rate o, robot o, joint_index_name_dic o, plugins o).

(** * Properties *)

(** ** Lists, dictionaries, ranges *)

Lemma skipn_length_app {A} (l l' : list A) :
  skipn (List.length l) (l ++ l') = l'.
Proof. induction l as [|a l IH]; [reflexivity | exact IH]. Qed.

Lemma dict_get_In_keys {V} (d : dict V) (k : Z) :
  In k (dict_keys d) -> exists v, dict_get d k = Some v.
Proof.
  induction d as [|[k' v'] d IH]; cbn; [tauto|].
  intros [Hk | Hk].
  - subst k'. rewrite Z.eqb_refl. eauto.
  - destruct (k' =? k); eauto.
Qed.

Lemma dict_get_None_keys {V} (d : dict V) (k : Z) :
  dict_get d k = None <-> ~ In k (dict_keys d).
Proof.
  induction d as [|[k' v'] d IH]; cbn; [tauto|].
  destruct (Z.eqb_spec k' k) as [->|Hne].
  - split; [discriminate | intros H; exfalso; apply H; now left].
  - rewrite IH. split; [intros H [?|?]; [congruence | tauto] | tauto].
Qed.

(** Assigning to a key that is not there appends the binding. *)
Lemma dict_set_fresh {V} (d : dict V) (k : Z) (v : V) :
  ~ In k (dict_keys d) -> dict_set d k v = d ++ [(k, v)].
Proof.
  induction d as [|[k' v'] d IH]; cbn; [reflexivity|].
  intros Hnin. destruct (Z.eqb_spec k' k) as [->|Hne]; [tauto|].
  rewrite IH; tauto.
Qed.

Lemma dict_get_app {V} (d1 d2 : dict V) (k : Z) :
  dict_get (d1 ++ d2) k =
  match dict_get d1 k with Some v => Some v | None => dict_get d2 k end.
Proof.
  induction d1 as [|[k' v'] d1 IH]; cbn; [reflexivity|].
  destruct (k' =? k); [reflexivity | exact IH].
Qed.

(** In a dictionary whose keys are distinct, the values read key by key are
    the second components. *)
Lemma dict_values_NoDup {V} (d : dict V) :
  NoDup (dict_keys d) -> dict_values d = map snd d.
Proof.
  unfold dict_values.
  assert (G : forall pre d', NoDup (dict_keys (pre ++ d')) ->
            flat_map (fun k => match dict_get (pre ++ d') k with
                               | Some v => [v] | None => @nil V end)
                     (dict_keys d') = map snd d').
  { intros pre d'; revert pre.
    induction d' as [|[k v] d' IH]; intros pre Hnd; [reflexivity|].
    cbn [dict_keys map fst flat_map snd].
    assert (Hpre : dict_get pre k = None).
    { apply dict_get_None_keys. unfold dict_keys in *.
      rewrite map_app in Hnd. cbn in Hnd.
      apply NoDup_remove_2 in Hnd. intros Hin. apply Hnd.
      apply in_or_app. now left. }
    rewrite dict_get_app, Hpre. cbn [dict_get]. rewrite Z.eqb_refl.
    cbn [app]. f_equal.
    specialize (IH (pre ++ [(k, v)])).
    rewrite <- app_assoc in IH. cbn [app] in IH. apply IH. exact Hnd. }
  intros Hnd. apply (G [] d). exact Hnd.
Qed.

Lemma range_In (lo hi i : Z) : In i (range lo hi) <-> lo <= i < hi.
Proof.
  unfold range. rewrite in_map_iff. split.
  - intros [n [<- Hn]]. apply in_seq in Hn. lia.
  - intros Hi. exists (Z.to_nat (i - lo)). split; [lia|].
    apply in_seq. lia.
Qed.

Lemma range_NoDup (lo hi : Z) : NoDup (range lo hi).
Proof.
  unfold range. apply Injective_map_NoDup; [|apply seq_NoDup].
  intros a b Hab. lia.
Qed.

Lemma range_nth_error (hi i : Z) :
  0 <= i ->
  nth_error (range 0 hi) (Z.to_nat i) = if i <? hi then Some i else None.
Proof.
  intros Hi. unfold range. rewrite nth_error_map.
  destruct (Z.ltb_spec i hi) as [Hlt|Hge].
  - rewrite nth_error_nth' with (d := O) by (rewrite length_seq; lia).
    rewrite seq_nth by lia. cbn. f_equal. lia.
  - replace (nth_error (seq 0 (Z.to_nat (hi - 0))) (Z.to_nat i))
      with (@None nat); [reflexivity|].
    symmetry. apply nth_error_None. rewrite length_seq. lia.
Qed.

(** The primitive actions and the wrappers of the outside calls, for
    running straight-line code by unfolding. *)
Create HintDb py discriminated.
#[global] Hint Unfold
  emit call act ask attr assign get_param is_shutdown signal_shutdown
  loginfo logwarn print Time_now Publisher Service publish Rate_sleep
  connect disconnect setAdditionalSearchPath getQuaternionFromEuler
  setGravity loadURDF setRealTimeSimulation resetSimulation getNumJoints
  getJointInfo getJointState stepSimulation new_plugin execute
  bind ret raise : py.

Ltac run := autounfold with py; cbn.

(** The same by call-by-value on the listed constants only, for long bodies
    (the string literals are left alone). *)
Ltac run_cbv :=
  cbv beta iota zeta delta
      [emit call act ask attr assign get_param is_shutdown signal_shutdown
       loginfo logwarn print Time_now Publisher Service publish Rate_sleep
       connect disconnect setAdditionalSearchPath getQuaternionFromEuler
       setGravity loadURDF setRealTimeSimulation resetSimulation
       getNumJoints getJointInfo getJointState stepSimulation new_plugin
       execute bind ret raise
       self world params shutdown trace].

Lemma count_events_app (p : Event -> bool) (l1 l2 : list Event) :
  count_events p (l1 ++ l2) = (count_events p l1 + count_events p l2)%nat.
Proof. unfold count_events. now rewrite filter_app, length_app. Qed.

Lemma count_events_map_none {A} (p : Event -> bool) (f : A -> Event)
      (l : list A) :
  (forall a, p (f a) = false) -> count_events p (map f l) = O.
Proof.
  intros H. unfold count_events.
  induction l as [|a l IH]; cbn; [reflexivity|]. now rewrite H.
Qed.

Section Proofs.
Context {W : Type} {Ext : External W}.

(** ** The control cycle *)

Lemma for_each_execute (ps : list Plugin) (s : Sys W) :
  for_each ps execute s =
  (Ok tt, mkSys (self s)
                (fold_left (fun w p => plugin_execute p w) ps (world s))
                (params s) (shutdown s)
                (trace s ++ map PluginExecute ps)).
Proof.
  revert s. induction ps as [|p ps IH]; intros [o w pr sd tr].
  - cbn. now rewrite app_nil_r.
  - cbn [for_each]. unfold bind at 1. cbn.
    rewrite IH. cbn. now rewrite <- app_assoc.
Qed.

Lemma fill_joint_msg_loop (body : Z) (d : dict text) (ks : list Z) :
  (forall k, In k ks -> In k (dict_keys d)) ->
  forall (msg : JointState) (s : Sys W),
    for_fold ks (fill_joint_msg body d) msg s =
    (Ok (mkJointState
           (stamp msg)
           (name msg ++
            flat_map (fun k => match dict_get d k with
                               | Some v => [v] | None => [] end) ks)
           (position msg ++
            map (fun k => jointPosition
                            (pb_getJointState body k (world s))) ks)
           (velocity msg ++
            map (fun k => jointVelocity
                            (pb_getJointState body k (world s))) ks)
           (effort msg ++
            map (fun k => appliedJointMotorTorque
                            (pb_getJointState body k (world s))) ks)),
     mkSys (self s) (world s) (params s) (shutdown s)
           (trace s ++
            map (fun k => GetJointState body k
                            (pb_getJointState body k (world s))) ks)).
Proof.
  induction ks as [|k ks IH]; intros Hin [sm nm ps vs es] [o w pr sd tr].
  - cbn. now rewrite !app_nil_r.
  - destruct (dict_get_In_keys d k) as [v Hv]; [apply Hin; now left|].
    cbn [for_fold]. unfold bind at 1.
    unfold fill_joint_msg at 1, getJointState, ask, emit, bind, ret.
    cbn. rewrite Hv. cbn.
    rewrite IH by (intros k' Hk'; apply Hin; now right).
    cbn. now rewrite <- !app_assoc.
Qed.

Lemma publish_joint_states_run (s : Sys W) :
  let o := self s in
  let w := world s in
  let keys := dict_keys (joint_index_name_dic o) in
  let st := fun k => pb_getJointState (robot o) k w in
  publish_joint_states s =
  (Ok tt,
   mkSys o w (params s) (shutdown s)
         (trace s ++
          map (fun k => GetJointState (robot o) k (st k)) keys ++
          [TimeNow (rospy_Time_now w);
           Publish (mkJointState
                      (rospy_Time_now w)
                      (dict_values (joint_index_name_dic o))
                      (map (fun k => jointPosition (st k)) keys)
                      (map (fun k => jointVelocity (st k)) keys)
                      (map (fun k => appliedJointMotorTorque (st k))
                           keys))])).
Proof.
  destruct s as [o w pr sd tr]. cbn zeta. cbn [self world params shutdown trace].
  unfold publish_joint_states, attr. unfold bind at 1 2 3. 
  rewrite fill_joint_msg_loop by (intros k Hk; exact Hk).
  run. unfold dict_values. now rewrite <- !app_assoc.
Qed.

(** An iteration while the flag is down. *)
Lemma loop_body_running (s : Sys W) :
  pause_simulation (self s) = false ->
  let o := self s in
  let w := world s in
  let keys := dict_keys (joint_index_name_dic o) in
  let st := fun k => pb_getJointState (robot o) k w in
  loop_body s =
  (Ok tt,
   mkSys o
         (rospy_Rate_sleep
            (loop_rate o)
            (pb_stepSimulation
               (fold_left (fun w p => plugin_execute p w) (plugins o) w)))
         (params s) (shutdown s)
         (trace s ++
          map (fun k => GetJointState (robot o) k (st k)) keys ++
          [TimeNow (rospy_Time_now w);
           Publish (mkJointState
                      (rospy_Time_now w)
                      (dict_values (joint_index_name_dic o))
                      (map (fun k => jointPosition (st k)) keys)
                      (map (fun k => jointVelocity (st k)) keys)
                      (map (fun k => appliedJointMotorTorque (st k))
                           keys))] ++
          map PluginExecute (plugins o) ++
          [StepSimulation; RateSleep])).
Proof.
  intros Hp. cbn zeta. unfold loop_body, attr. unfold bind at 1 2.
  rewrite Hp. cbn [negb]. unfold bind at 1.
  rewrite publish_joint_states_run.
  destruct s as [o w pr sd tr]. cbn [self world params shutdown trace] in *.
  unfold bind at 1 2. cbn [self]. rewrite for_each_execute. run.
  repeat (rewrite <- ?app_assoc; cbn [app]). reflexivity.
Qed.

(** An iteration while the flag is up. *)
Lemma loop_body_paused (s : Sys W) :
  pause_simulation (self s) = true ->
  loop_body s =
  (Ok tt,
   mkSys (self s) (rospy_Rate_sleep (loop_rate (self s)) (world s))
         (params s) (shutdown s) (trace s ++ [RateSleep])).
Proof.
  intros Hp. unfold loop_body, attr. unfold bind at 1 2.
  rewrite Hp. destruct s as [o w pr sd tr]. reflexivity.
Qed.

(** The [while] loop: it leaves at the first test that finds the node shut
    down, and disconnects; otherwise it runs the body and tests again. *)
Lemma start_pybullet_ros_wrapper_exit (fuel : nat) (s : Sys W) :
  shutdown s = true ->
  start_pybullet_ros_wrapper (S fuel) s =
  (Ok Disconnected,
   mkSys (self s) (pb_disconnect (world s)) (params s) (shutdown s)
         (trace s ++ [Disconnect])).
Proof.
  intros Hsd. destruct s as [o w pr sd tr]. cbn in Hsd. subst sd.
  reflexivity.
Qed.

Lemma start_pybullet_ros_wrapper_iterate (fuel : nat) (s : Sys W) :
  shutdown s = false ->
  start_pybullet_ros_wrapper (S fuel) s =
  (loop_body ;; start_pybullet_ros_wrapper fuel) s.
Proof.
  intros Hsd. destruct s as [o w pr sd tr]. cbn in Hsd. subst sd.
  reflexivity.
Qed.

(** ** The joint table *)

Lemma revolute_entry_keys_filter (body : Z) (w : W) (js : list Z) :
  (forall j, In j js -> jointType (pb_getJointInfo body j w) = 0 ->
             decode_utf8 (jointName (pb_getJointInfo body j w)) <> None) ->
  dict_keys (flat_map (revolute_entry body w) js) =
  filter (fun j => jointType (pb_getJointInfo body j w) =? 0) js.
Proof.
  unfold dict_keys. induction js as [|j js IH]; intros Hgood;
    [reflexivity|].
  cbn [flat_map filter]. rewrite map_app.
  rewrite IH by (intros j' Hj'; apply Hgood; now right).
  unfold revolute_entry.
  destruct (Z.eqb_spec (jointType (pb_getJointInfo body j w)) 0)
    as [Ht|Ht]; [|reflexivity].
  specialize (Hgood j (or_introl eq_refl) Ht).
  destruct (decode_utf8 _); [reflexivity | congruence].
Qed.

Lemma revolute_entry_get (body : Z) (w : W) (js : list Z) (i : Z)
      (nm : text) :
  dict_get (flat_map (revolute_entry body w) js) i = Some nm <->
  In i js /\ jointType (pb_getJointInfo body i w) = 0 /\
  decode_utf8 (jointName (pb_getJointInfo body i w)) = Some nm.
Proof.
  induction js as [|j js IH]; cbn [flat_map].
  - cbn. split; [discriminate | tauto].
  - rewrite dict_get_app. unfold revolute_entry at 1.
    destruct (Z.eqb_spec (jointType (pb_getJointInfo body j w)) 0)
      as [Ht|Ht].
    + destruct (decode_utf8 (jointName (pb_getJointInfo body j w)))
        as [nmj|] eqn:Hd; cbn [dict_get].
      * destruct (Z.eqb_spec j i) as [->|Hne].
        -- rewrite Hd. split.
           ++ intros H. repeat split; [now left | exact Ht | exact H].
           ++ tauto.
        -- rewrite IH. cbn [In]. intuition congruence.
      * rewrite IH. cbn [In]. intuition congruence.
    + cbn [dict_get]. rewrite IH. cbn [In]. intuition congruence.
Qed.

Lemma revolute_joint_step_run (body : Z) (d : dict text) (j : Z)
      (s : Sys W) :
  let info := pb_getJointInfo body j (world s) in
  let s1 := mkSys (self s) (world s) (params s) (shutdown s)
                  (trace s ++ [GetJointInfo body j info]) in
  revolute_joint_step body d j s =
  if jointType info =? 0
  then match decode_utf8 (jointName info) with
       | Some nm => (Ok (dict_set d j nm), s1)
       | None => (Raise UnicodeDecodeError, s1)
       end
  else (Ok d, s1).
Proof.
  destruct s as [o w pr sd tr]. cbn zeta. unfold revolute_joint_step.
  run. destruct (jointType _ =? 0); [|reflexivity].
  destruct (decode_utf8 _); reflexivity.
Qed.

Lemma revolute_joint_loop (body : Z) (js : list Z) :
  NoDup js ->
  forall (d0 : dict text) (s : Sys W),
    (forall j, In j js -> ~ In j (dict_keys d0)) ->
    (for_fold js (revolute_joint_step body) d0 s =
     (Ok (d0 ++ flat_map (revolute_entry body (world s)) js),
      mkSys (self s) (world s) (params s) (shutdown s)
            (trace s ++
             map (fun j => GetJointInfo body j
                             (pb_getJointInfo body j (world s))) js))
     /\ forall j, In j js ->
                  jointType (pb_getJointInfo body j (world s)) = 0 ->
                  decode_utf8 (jointName (pb_getJointInfo body j (world s)))
                  <> None)
    \/
    (fst (for_fold js (revolute_joint_step body) d0 s)
     = Raise UnicodeDecodeError
     /\ exists j, In j js /\
                  jointType (pb_getJointInfo body j (world s)) = 0 /\
                  decode_utf8 (jointName (pb_getJointInfo body j (world s)))
                  = None).
Proof.
  induction 1 as [|j js Hj Hnd IH]; intros d0 [o w pr sd tr] Hfresh.
  - left. cbn. rewrite !app_nil_r. split; [reflexivity | tauto].
  - cbn [for_fold world self params shutdown trace].
    unfold bind. rewrite !revolute_joint_step_run.
    cbn [world self params shutdown trace flat_map map].
    unfold revolute_entry at 1. cbv zeta.
    destruct (Z.eqb_spec (jointType (pb_getJointInfo body j w)) 0)
      as [Ht|Ht].
    + destruct (decode_utf8 (jointName (pb_getJointInfo body j w)))
        as [nm|] eqn:Hd.
      * rewrite dict_set_fresh by (apply Hfresh; now left).
        match goal with
        | |- context [for_fold js _ ?d ?s1] =>
          destruct (IH d s1) as [[Hrun Hgood]|[Hrun Hbad]]
        end.
        { intros j' Hj' Hin. unfold dict_keys in Hin.
          rewrite map_app, in_app_iff in Hin. cbn in Hin.
          destruct Hin as [Hin|[<-|[]]]; [|tauto].
          apply (Hfresh j'); [now right | exact Hin]. }
        -- left. cbn [world self params shutdown trace] in *.
           rewrite Hrun. split.
           ++ now rewrite <- !app_assoc.
           ++ intros j' [<-|Hj']; [congruence | now apply Hgood].
        -- right. cbn [world] in *. split; [exact Hrun|].
           destruct Hbad as [j' [Hin Hj']]. exists j'. split; [now right|].
           exact Hj'.
      * right. split; [reflexivity|]. exists j. repeat split; auto.
        now left.
    + match goal with
      | |- context [for_fold js _ ?d ?s1] =>
        destruct (IH d s1) as [[Hrun Hgood]|[Hrun Hbad]]
      end.
      { intros j' Hj'. apply Hfresh. now right. }
      * left. cbn [world self params shutdown trace] in *.
        rewrite Hrun. split.
        -- cbn [app]. now rewrite <- !app_assoc.
        -- intros j' [<-|Hj']; [congruence | now apply Hgood].
      * right. cbn [world] in *. split; [exact Hrun|].
        destruct Hbad as [j' [Hin Hj']]. exists j'. split; [now right|].
        exact Hj'.
Qed.

Lemma get_all_revolute_joint_names_unfold (s : Sys W) :
  let body := robot (self s) in
  let n := pb_getNumJoints body (world s) in
  get_all_revolute_joint_names s =
  for_fold (range 0 n) (revolute_joint_step body) []
           (mkSys (self s) (world s) (params s) (shutdown s)
                  (trace s ++ [GetNumJoints body n])).
Proof. destruct s. reflexivity. Qed.

(** The two ways the method can end. *)
Lemma get_all_revolute_joint_names_cases (s : Sys W) :
  let body := robot (self s) in
  let w := world s in
  let n := pb_getNumJoints body w in
  (fst (get_all_revolute_joint_names s)
   = Ok (flat_map (revolute_entry body w) (range 0 n)) /\
   forall j, In j (range 0 n) ->
             jointType (pb_getJointInfo body j w) = 0 ->
             decode_utf8 (jointName (pb_getJointInfo body j w)) <> None)
  \/
  (fst (get_all_revolute_joint_names s) = Raise UnicodeDecodeError /\
   exists j, In j (range 0 n) /\
             jointType (pb_getJointInfo body j w) = 0 /\
             decode_utf8 (jointName (pb_getJointInfo body j w)) = None).
Proof.
  rewrite get_all_revolute_joint_names_unfold.
  destruct s as [o w pr sd tr]. cbv zeta.
  cbn [self world params shutdown trace].
  set (body := robot o). set (n := pb_getNumJoints body w).
  match goal with
  | |- context [for_fold _ _ _ ?s1] =>
    destruct (revolute_joint_loop body (range_NoDup 0 n) [] s1)
      as [[Hrun Hgood]|[Hrun Hbad]]
  end.
  { intros j _ []. }
  - left. cbn [world] in *. rewrite Hrun. split; [reflexivity | exact Hgood].
  - right. cbn [world] in *. split; [exact Hrun | exact Hbad].
Qed.

(** The keys of a table the method returns are distinct, so its values in
    iteration order are the names as they were entered. *)
Lemma joint_table_values (s : Sys W) (d : dict text) :
  fst (get_all_revolute_joint_names s) = Ok d ->
  NoDup (dict_keys d) /\ dict_values d = map snd d.
Proof.
  intros Hd.
  assert (Hnd : NoDup (dict_keys d)).
  { destruct (get_all_revolute_joint_names_cases s)
      as [[Hrun Hgood]|[Hrun _]]; [|congruence].
    rewrite Hrun in Hd. injection Hd as <-.
    rewrite revolute_entry_keys_filter by exact Hgood.
    apply NoDup_filter, range_NoDup. }
  split; [exact Hnd | now apply dict_values_NoDup].
Qed.

Lemma joint_list_nth (body : Z) (w : W) (i : Z) :
  0 <= i ->
  nth_error (joint_list body w) (Z.to_nat i) =
  if i <? pb_getNumJoints body w
  then Some (pb_getJointInfo body i w) else None.
Proof.
  intros Hi. unfold joint_list. rewrite nth_error_map.
  rewrite range_nth_error by exact Hi.
  now destruct (i <? pb_getNumJoints body w).
Qed.

(** ** Start-up of the world and the reset handler *)

Lemma init_pybullet_robot_run (s : Sys W) :
  let ps := params s in
  let urdf_path := param_value ps "~robot_urdf_path" PyNone in
  let euler := [PyFloat 0.0; PyFloat 0.0;
                param_value ps "~robot_pose_yaw" (PyFloat 0.0)] in
  let q := pb_getQuaternionFromEuler euler in
  let kw := mkURDFArgs
              [param_value ps "~robot_pose_x" (PyFloat 0.0);
               param_value ps "~robot_pose_y" (PyFloat 0.0);
               param_value ps "~robot_pose_z" (PyFloat 1.0)]
              q
              (param_value ps "~fixed_base" (PyBool false))
              (if truthy (param_value ps "~use_intertia_from_file"
                                      (PyBool false))
               then Z.lor URDF_USE_INERTIA_FROM_FILE
                          URDF_USE_SELF_COLLISION
               else URDF_USE_SELF_COLLISION) in
  let gravity := param_value ps "~gravity" (PyFloat (-9.81)) in
  let plane := pb_loadURDF (PyStr "plane.urdf") None
                 (pb_setGravity (PyInt 0) (PyInt 0) gravity (world s)) in
  let body := pb_loadURDF urdf_path (Some kw)
                (pb_setRealTimeSimulation 0 (snd plane)) in
  init_pybullet_robot s =
  (Ok (fst body),
   mkSys (self s) (snd body) ps
         (if eq_None urdf_path then true else shutdown s)
         (trace s ++
          (if eq_None urdf_path
           then [SignalShutdown
                   "mandatory param robot_urdf_path not set, will exit now"]
           else []) ++
          [GetQuaternionFromEuler euler q;
           SetGravity (PyInt 0) (PyInt 0) gravity;
           LoadURDF (PyStr "plane.urdf") None (fst plane);
           SetRealTimeSimulation 0;
           LoadURDF urdf_path (Some kw) (fst body)])).
Proof.
  destruct s as [o w pr sd tr]. cbv zeta.
  cbn [self world params shutdown trace].
  unfold init_pybullet_robot. run_cbv.
  destruct (eq_None (param_value pr "~robot_urdf_path" PyNone));
    cbv beta iota; rewrite <- !app_assoc; reflexivity.
Qed.

(** The state in which the reset handler reloads the world: flag up,
    engine emptied. *)
Lemma handle_reset_simulation_run (s : Sys W) :
  let s1 := mkSys (set_pause_simulation true (self s))
                  (pb_resetSimulation (world s)) (params s) (shutdown s)
                  (trace s ++ [Loginfo "reseting simulation now" [];
                               ResetSimulation]) in
  let s2 := snd (init_pybullet_robot s1) in
  handle_reset_simulation s =
  (Ok [],
   mkSys (set_pause_simulation false (self s)) (world s2) (params s)
         (shutdown s2) (trace s2)).
Proof.
  destruct s as [o w pr sd tr]. cbn zeta.
  unfold handle_reset_simulation.
  unfold loginfo, resetSimulation, assign, act, emit.
  unfold bind at 1 2 3 4. cbn [self world params shutdown trace].
  rewrite <- app_assoc. cbn [app].
  unfold bind at 1. rewrite init_pybullet_robot_run. cbn.
  reflexivity.
Qed.

Lemma handle_pause_physics_run (s : Sys W) :
  handle_pause_physics s =
  (Ok [],
   mkSys (set_pause_simulation false (self s)) (world s) (params s)
         (shutdown s) (trace s ++ [Loginfo "pausing simulation" []])).
Proof. destruct s. reflexivity. Qed.

Lemma handle_unpause_physics_run (s : Sys W) :
  handle_unpause_physics s =
  (Ok [],
   mkSys (set_pause_simulation true (self s)) (world s) (params s)
         (shutdown s) (trace s ++ [Loginfo "unpausing simulation" []])).
Proof. destruct s. reflexivity. Qed.

Lemma handle_reset_simulation_self (s : Sys W) :
  fst (handle_reset_simulation s) = Ok [] /\
  self (snd (handle_reset_simulation s)) =
  set_pause_simulation false (self s).
Proof. rewrite handle_reset_simulation_run. split; reflexivity. Qed.

(** ** Scenarios *)

Lemma running_iterations (n : nat) :
  forall s : Sys W,
    pause_simulation (self s) = false ->
    exists s' evs,
      for_each (repeat Iteration n) run_step s = (Ok tt, s') /\
      self s' = self s /\
      trace s' = trace s ++ evs /\
      count_events is_Publish evs = n /\
      count_events is_StepSimulation evs = n.
Proof.
  induction n as [|n IH]; intros s Hp.
  - exists s, []. rewrite app_nil_r. repeat split; reflexivity.
  - cbn [repeat for_each run_step]. unfold bind at 1.
    rewrite (loop_body_running s Hp). cbv zeta.
    match goal with
    | |- context [for_each _ _ ?s1] =>
      destruct (IH s1 Hp) as [s' [evs [Hrun [Hself [Htr [Hpub Hstep]]]]]]
    end.
    cbn [self trace] in Hself, Htr.
    eexists s', _. rewrite Hrun. split; [reflexivity|].
    split; [exact Hself|]. rewrite Htr, <- app_assoc.
    split; [reflexivity|].
    rewrite !count_events_app, Hpub, Hstep.
    rewrite !count_events_map_none by reflexivity.
    split; reflexivity.
Qed.

Lemma paused_iterations (n : nat) :
  forall s : Sys W,
    pause_simulation (self s) = true ->
    exists s',
      for_each (repeat Iteration n) run_step s = (Ok tt, s') /\
      self s' = self s /\
      trace s' = trace s ++ repeat RateSleep n.
Proof.
  induction n as [|n IH]; intros s Hp.
  - exists s. rewrite app_nil_r. repeat split; reflexivity.
  - cbn [repeat for_each run_step]. unfold bind at 1.
    rewrite (loop_body_paused s Hp).
    match goal with
    | |- context [for_each _ _ ?s1] =>
      destruct (IH s1 Hp) as [s' [Hrun [Hself Htr]]]
    end.
    cbn [self trace] in Hself, Htr.
    exists s'. rewrite Hrun. split; [reflexivity|].
    split; [exact Hself|]. rewrite Htr, <- app_assoc. reflexivity.
Qed.

(** ** The claims *)

Lemma pause_then_iterate (s : Sys W) (n : nat) :
  exists s' evs,
    run_scenario (Incoming pause_physics :: repeat Iteration n) s
    = (Ok tt, s') /\
    trace s' = trace s ++ [Loginfo "pausing simulation" []] ++ evs /\
    count_events is_Publish evs = n /\
    count_events is_StepSimulation evs = n.
Proof.
  unfold run_scenario. cbn [for_each run_step serve].
  unfold bind at 1 2. rewrite handle_pause_physics_run.
  cbv beta iota. unfold ret at 1.
  match goal with
  | |- context [for_each _ _ ?s1] =>
    destruct (running_iterations n s1 eq_refl)
      as [s' [evs [Hrun [_ [Htr [Hpub Hstep]]]]]]
  end.
  exists s', evs. rewrite Hrun. cbn [trace] in Htr.
  rewrite Htr, <- app_assoc. auto.
Qed.

Lemma unpause_then_iterate (s : Sys W) (n : nat) :
  exists s',
    run_scenario (Incoming unpause_physics :: repeat Iteration n) s
    = (Ok tt, s') /\
    trace s' = trace s ++ [Loginfo "unpausing simulation" []]
                       ++ repeat RateSleep n.
Proof.
  unfold run_scenario. cbn [for_each run_step serve].
  unfold bind at 1 2. rewrite handle_unpause_physics_run.
  cbv beta iota. unfold ret at 1.
  match goal with
  | |- context [for_each _ _ ?s1] =>
    destruct (paused_iterations n s1 eq_refl) as [s' [Hrun [_ Htr]]]
  end.
  exists s'. rewrite Hrun. cbn [trace] in Htr.
  rewrite Htr, <- app_assoc. auto.
Qed.

(** C1, as the code has it.  A pause-physics request lowers the flag, so
    the iterations that follow it keep working: [n] iterations after the
    request publish [n] joint-state messages and make [n] simulation
    steps.  The specification asks for none of either. *)
Theorem pause_request_does_not_stop_the_cycle (s : Sys W) (n : nat) :
  let sc := Incoming pause_physics :: repeat Iteration n in
  fst (run_scenario sc s) = Ok tt /\
  count_events is_Publish (new_events (run_scenario sc) s) = n /\
  count_events is_StepSimulation (new_events (run_scenario sc) s) = n.
Proof.
  cbv zeta. unfold new_events.
  destruct (pause_then_iterate s n)
    as [s' [evs [Hrun [Htr [Hpub Hstep]]]]].
  rewrite Hrun. cbn [fst snd]. rewrite Htr, skipn_length_app.
  rewrite !count_events_app, Hpub, Hstep. repeat split; reflexivity.
Qed.

(** X21.  The mirror image: after an unpause-physics request the
    iterations only sleep: [n] iterations make [n] sleeps and no publish,
    no plugin call and no simulation step. *)
Remark unpause_request_stops_the_cycle (s : Sys W) (n : nat) :
  new_events (run_scenario (Incoming unpause_physics :: repeat Iteration n))
             s
  = Loginfo "unpausing simulation" [] :: repeat RateSleep n.
Proof.
  unfold new_events.
  destruct (unpause_then_iterate s n) as [s' [Hrun Htr]].
  rewrite Hrun. cbn [snd]. rewrite Htr. apply skipn_length_app.
Qed.

(** C2.  An iteration that finds the pause flag up publishes nothing, runs
    no plugin and makes no simulation step: the sleep of the rate is the
    only call it makes, and the object is left as it was. *)
Theorem paused_iteration_only_sleeps (s : Sys W) :
  pause_simulation (self s) = true ->
  fst (loop_body s) = Ok tt /\
  new_events loop_body s = [RateSleep] /\
  count_events is_Publish (new_events loop_body s) = O /\
  count_events is_PluginExecute (new_events loop_body s) = O /\
  count_events is_StepSimulation (new_events loop_body s) = O /\
  self (snd (loop_body s)) = self s /\
  world (snd (loop_body s)) =
  rospy_Rate_sleep (loop_rate (self s)) (world s).
Proof.
  intros Hp. unfold new_events. rewrite (loop_body_paused s Hp).
  cbn [fst snd trace self world]. rewrite skipn_length_app.
  repeat split; reflexivity.
Qed.


(** C10.  With an empty joint table an iteration that finds the flag down
    still publishes: one message, stamped with the current time, whose
    name, position, velocity and effort lists are empty. *)
Theorem empty_table_still_publishes (s : Sys W) :
  pause_simulation (self s) = false ->
  joint_index_name_dic (self s) = [] ->
  let empty_msg := mkJointState (rospy_Time_now (world s)) [] [] [] [] in
  new_events loop_body s =
    [TimeNow (rospy_Time_now (world s)); Publish empty_msg] ++
    map PluginExecute (plugins (self s)) ++
    [StepSimulation; RateSleep] /\
  filter is_Publish (new_events loop_body s) = [Publish empty_msg].
Proof.
  intros Hp Hd. cbv zeta. unfold new_events.
  rewrite (loop_body_running s Hp). cbv zeta.
  cbn [fst snd trace]. rewrite skipn_length_app. rewrite Hd.
  cbn [dict_keys dict_values map flat_map app].
  split; [reflexivity|].
  cbn [filter is_Publish]. f_equal.
  rewrite filter_app.
  replace (filter is_Publish (map PluginExecute (plugins (self s))))
    with (@nil Event); [reflexivity|].
  induction (plugins (self s)) as [|p ps IH]; [reflexivity | exact IH].
Qed.

(** C5.  The table [get_all_revolute_joint_names] builds from the joints
    the engine reports holds index [i] with name [nm] exactly when joint
    [i] of the list has type code 0 (revolute) and [nm] is its name decoded
    from UTF-8; its keys are the revolute indices in increasing order.
    The table is built whenever every revolute joint's name is valid
    UTF-8; otherwise the method raises [UnicodeDecodeError]. *)
Theorem joint_table_is_the_revolute_joints (s : Sys W) :
  let body := robot (self s) in
  let w := world s in
  let js := joint_list body w in
  (exists d,
      fst (get_all_revolute_joint_names s) = Ok d /\
      (forall i nm,
          dict_get d i = Some nm <->
          exists info,
            0 <= i /\ nth_error js (Z.to_nat i) = Some info /\
            jointType info = 0 /\
            decode_utf8 (jointName info) = Some nm) /\
      dict_keys d =
      filter (fun i => jointType (pb_getJointInfo body i w) =? 0)
             (range 0 (pb_getNumJoints body w)) /\
      (forall info, In info js -> jointType info = 0 ->
                    decode_utf8 (jointName info) <> None))
  \/
  (fst (get_all_revolute_joint_names s) = Raise UnicodeDecodeError /\
   exists info, In info js /\ jointType info = 0 /\
                decode_utf8 (jointName info) = None).
Proof.
  cbv zeta.
  destruct (get_all_revolute_joint_names_cases s)
    as [[Hrun Hgood]|[Hrun Hbad]];
    set (body := robot (self s)) in *; set (w := world s) in *;
    set (n := pb_getNumJoints body w) in *.
  - left. eexists. split; [exact Hrun|]. split; [|split].
    + intros i nm. rewrite revolute_entry_get, range_In. split.
      * intros [Hi [Ht Hd]]. exists (pb_getJointInfo body i w).
        split; [lia|]. rewrite joint_list_nth by lia.
        fold n. destruct (Z.ltb_spec i n); [|lia]. auto.
      * intros [info [Hi [Hnth [Ht Hd]]]].
        rewrite joint_list_nth in Hnth by lia. fold n in Hnth.
        destruct (Z.ltb_spec i n); [|discriminate].
        injection Hnth as <-. split; [lia|]. auto.
    + apply revolute_entry_keys_filter. exact Hgood.
    + intros info Hin. unfold joint_list in Hin.
      apply in_map_iff in Hin. destruct Hin as [j [<- Hj]].
      now apply Hgood.
  - right. split; [exact Hrun|].
    destruct Hbad as [j [Hj [Ht Hd]]]. exists (pb_getJointInfo body j w).
    split; [|auto]. unfold joint_list.
    apply (in_map (fun i => pb_getJointInfo body i w)). exact Hj.
Qed.

(** C7.  The reset handler completes and leaves the joint table and the
    plugin list as they were. *)
Theorem reset_keeps_joint_table_and_plugins (s : Sys W) :
  fst (handle_reset_simulation s) = Ok [] /\
  joint_index_name_dic (self (snd (handle_reset_simulation s)))
  = joint_index_name_dic (self s) /\
  plugins (self (snd (handle_reset_simulation s))) = plugins (self s).
Proof.
  destruct (handle_reset_simulation_self s) as [Hok Hself].
  rewrite Hself. split; [exact Hok|]. split; reflexivity.
Qed.

(** C4, amended.  The reset handler completes with the pause flag down,
    whatever the flag was before; so the flag is what it was before the
    reset exactly when the simulation was not paused. *)
Theorem reset_always_ends_unpaused (s : Sys W) :
  fst (handle_reset_simulation s) = Ok [] /\
  pause_simulation (self (snd (handle_reset_simulation s))) = false /\
  (pause_simulation (self (snd (handle_reset_simulation s)))
   = pause_simulation (self s) <->
   pause_simulation (self s) = false).
Proof.
  destruct (handle_reset_simulation_self s) as [Hok Hself].
  rewrite Hself. cbn [set_pause_simulation pause_simulation].
  repeat split; auto.
Qed.


Lemma init_pybullet_robot_events (s : Sys W) :
  exists euler q gravity h0 kw h,
    fst (init_pybullet_robot s) = Ok h /\
    self (snd (init_pybullet_robot s)) = self s /\
    shutdown (snd (init_pybullet_robot s)) =
    (if eq_None (param_value (params s) "~robot_urdf_path" PyNone)
     then true else shutdown s) /\
    new_events init_pybullet_robot s =
    (if eq_None (param_value (params s) "~robot_urdf_path" PyNone)
     then [SignalShutdown
             "mandatory param robot_urdf_path not set, will exit now"]
     else []) ++
    [GetQuaternionFromEuler euler q;
     SetGravity (PyInt 0) (PyInt 0) gravity;
     LoadURDF (PyStr "plane.urdf") None h0;
     SetRealTimeSimulation 0;
     LoadURDF (param_value (params s) "~robot_urdf_path" PyNone)
              (Some kw) h].
Proof.
  unfold new_events. rewrite init_pybullet_robot_run. cbv zeta.
  cbn [fst snd self shutdown trace]. rewrite skipn_length_app.
  do 6 eexists. repeat split; reflexivity.
Qed.

(** C8, as the code has it.  When the parameter [~robot_urdf_path] is not
    set, [init_pybullet_robot] signals the shutdown and goes on: it sets
    gravity, loads the ground plane and calls [loadURDF] for the robot
    with [None] as the path, and returns the handle of that call.  The
    specification asks that no such call be made. *)
Theorem missing_urdf_path_still_loads (s : Sys W) :
  param_value (params s) "~robot_urdf_path" PyNone = PyNone ->
  exists euler q gravity h0 kw h,
    fst (init_pybullet_robot s) = Ok h /\
    shutdown (snd (init_pybullet_robot s)) = true /\
    new_events init_pybullet_robot s =
    [SignalShutdown
       "mandatory param robot_urdf_path not set, will exit now";
     GetQuaternionFromEuler euler q;
     SetGravity (PyInt 0) (PyInt 0) gravity;
     LoadURDF (PyStr "plane.urdf") None h0;
     SetRealTimeSimulation 0;
     LoadURDF PyNone (Some kw) h].
Proof.
  intros Hnone.
  destruct (init_pybullet_robot_events s)
    as (euler & q & gravity & h0 & kw & h & Hok & _ & Hsd & Hev).
  rewrite Hnone in Hsd, Hev. cbn [eq_None app] in Hsd, Hev.
  exists euler, q, gravity, h0, kw, h. auto.
Qed.

(** C9, amended.  [init_pybullet_robot] sets gravity first, then loads the
    ground plane, then switches real-time simulation off, and loads the
    robot description last; these are its only calls that change the
    world, and it returns the handle of the robot. *)
Theorem world_is_set_up_before_the_robot (s : Sys W) :
  let evs := new_events init_pybullet_robot s in
  (exists pre euler q gravity h0 path kw h,
      evs = pre ++
            [GetQuaternionFromEuler euler q;
             SetGravity (PyInt 0) (PyInt 0) gravity;
             LoadURDF (PyStr "plane.urdf") None h0;
             SetRealTimeSimulation 0;
             LoadURDF path (Some kw) h] /\
      (pre = [] \/ exists reason, pre = [SignalShutdown reason]) /\
      fst (init_pybullet_robot s) = Ok h) /\
  occurs_before is_SetGravity is_plane_load evs /\
  occurs_before is_plane_load is_robot_load evs /\
  occurs_before is_SetGravity is_robot_load evs /\
  count_events is_robot_load evs = 1%nat.
Proof.
  cbv zeta.
  destruct (init_pybullet_robot_events s)
    as (euler & q & gravity & h0 & kw & h & Hok & _ & _ & Hev).
  rewrite Hev.
  destruct (eq_None (param_value (params s) "~robot_urdf_path" PyNone));
    (split;
     [ do 8 eexists; split; [reflexivity|]; split; [|exact Hok];
       first [ left; reflexivity | right; eexists; reflexivity ]
     | unfold occurs_before; cbn;
       repeat split;
       try (eexists; split;
            [reflexivity | intros j Hj; injection Hj as <-; lia]) ]).
Qed.

End Proofs.

Section Further.
Context {W : Type} {Ext : External W}.

(** ** Sequencing *)

Lemma for_each_app {A} (xs ys : list A) (body : A -> M W unit) (s : Sys W) :
  for_each (xs ++ ys) body s =
  match for_each xs body s with
  | (Ok _, s') => for_each ys body s'
  | (Raise e, s') => (Raise e, s')
  end.
Proof.
  revert s. induction xs as [|x xs IH]; intros s; [reflexivity|].
  cbn [app for_each]. unfold bind.
  destruct (body x s) as [[u|e] s1]; [apply IH | reflexivity].
Qed.

Lemma set_pause_simulation_same (o : pyBulletRosWrapper) :
  set_pause_simulation (pause_simulation o) o = o.
Proof. destruct o. reflexivity. Qed.

Lemma count_events_cons (p : Event -> bool) (e : Event) (l : list Event) :
  count_events p (e :: l)
  = ((if p e then 1 else 0) + count_events p l)%nat.
Proof. unfold count_events. cbn. now destruct (p e). Qed.

(** ** What one iteration does and leaves alone *)

Lemma loop_body_effect (s : Sys W) :
  exists w' evs,
    loop_body s =
    (Ok tt, mkSys (self s) w' (params s) (shutdown s) (trace s ++ evs)) /\
    count_events is_RateSleep evs = 1%nat /\
    count_events is_StepSimulation evs
    = (if pause_simulation (self s) then 0 else 1)%nat /\
    count_events is_Publish evs
    = (if pause_simulation (self s) then 0 else 1)%nat /\
    (forall p : Event -> bool,
        p RateSleep = false -> p StepSimulation = false ->
        (forall x, p (PluginExecute x) = false) ->
        (forall x, p (Publish x) = false) ->
        (forall x, p (TimeNow x) = false) ->
        (forall b i x, p (GetJointState b i x) = false) ->
        count_events p evs = O).
Proof.
  destruct (pause_simulation (self s)) eqn:Hp.
  - rewrite (loop_body_paused s Hp). do 2 eexists.
    split; [reflexivity|]. repeat split; try reflexivity.
    intros p H1 _ _ _ _ _. rewrite count_events_cons, H1. reflexivity.
  - rewrite (loop_body_running s Hp). cbv zeta. do 2 eexists.
    split; [reflexivity|].
    repeat split.
    + rewrite !count_events_app.
      rewrite !count_events_map_none by reflexivity. reflexivity.
    + rewrite !count_events_app.
      rewrite !count_events_map_none by reflexivity. reflexivity.
    + rewrite !count_events_app.
      rewrite !count_events_map_none by reflexivity. reflexivity.
    + intros p H1 H2 H3 H4 H5 H6. rewrite !count_events_app.
      rewrite !count_events_map_none by auto.
      rewrite !count_events_cons, H1, H2, H4, H5. reflexivity.
Qed.

(** ** The [while] loop *)

Lemma loop_iterations (fuel : nat) :
  forall s : Sys W,
    shutdown s = false ->
    exists w' evs,
      start_pybullet_ros_wrapper fuel s =
      (Ok StillRunning,
       mkSys (self s) w' (params s) false (trace s ++ evs)) /\
      count_events is_RateSleep evs = fuel /\
      count_events is_StepSimulation evs
      = (if pause_simulation (self s) then 0 else fuel)%nat /\
      count_events is_Publish evs
      = (if pause_simulation (self s) then 0 else fuel)%nat /\
      count_events is_Disconnect evs = O.
Proof.
  induction fuel as [|fuel IH]; intros s Hsd.
  - exists (world s), []. rewrite app_nil_r.
    destruct s as [o w pr sd tr]. cbn in Hsd. subst sd.
    split; [reflexivity|]. cbn. destruct (pause_simulation o); auto.
  - rewrite start_pybullet_ros_wrapper_iterate by exact Hsd.
    unfold bind.
    destruct (loop_body_effect s)
      as (w1 & evs1 & Hrun & Hsl & Hst & Hpu & Hno).
    rewrite Hrun.
    match goal with
    | |- context [start_pybullet_ros_wrapper fuel ?s1] =>
      destruct (IH s1 Hsd) as (w2 & evs2 & Hrun2 & Hsl2 & Hst2 & Hpu2 & Hd2)
    end.
    cbn [self params trace] in *.
    rewrite Hrun2. exists w2, (evs1 ++ evs2).
    rewrite <- app_assoc. split; [reflexivity|].
    rewrite !count_events_app, Hsl, Hsl2, Hst, Hst2, Hpu, Hpu2, Hd2.
    rewrite (Hno is_Disconnect) by reflexivity.
    destruct (pause_simulation (self s)); repeat split; reflexivity.
Qed.

(** ** Scenarios *)

Lemma run_step_effect (st : Step) (s : Sys W) :
  exists b w' sd' evs,
    run_step st s =
    (Ok tt,
     mkSys (set_pause_simulation b (self s)) w' (params s) sd'
           (trace s ++ evs)) /\
    (shutdown s = true -> sd' = true).
Proof.
  destruct st as [[| |]|]; cbn [run_step serve]; unfold bind.
  - rewrite handle_reset_simulation_run. cbv zeta.
    rewrite init_pybullet_robot_run. cbv zeta.
    cbn [snd self world params shutdown trace fst].
    do 4 eexists. unfold ret. rewrite <- app_assoc.
    split; [reflexivity|].
    intros ->. now destruct (eq_None _).
  - rewrite handle_pause_physics_run. do 4 eexists.
    split; [reflexivity | auto].
  - rewrite handle_unpause_physics_run. do 4 eexists.
    split; [reflexivity | auto].
  - destruct (loop_body_effect s) as (w1 & evs1 & Hrun & _).
    exists (pause_simulation (self s)), w1, (shutdown s), evs1.
    rewrite set_pause_simulation_same. split; [exact Hrun | auto].
Qed.

Lemma run_scenario_effect (sc : list Step) :
  forall s : Sys W,
    exists b w' sd' evs,
      run_scenario sc s =
      (Ok tt,
       mkSys (set_pause_simulation b (self s)) w' (params s) sd'
             (trace s ++ evs)) /\
      (shutdown s = true -> sd' = true).
Proof.
  unfold run_scenario.
  induction sc as [|st sc IH]; intros s.
  - exists (pause_simulation (self s)), (world s), (shutdown s), [].
    rewrite set_pause_simulation_same, app_nil_r.
    destruct s. split; [reflexivity | auto].
  - cbn [for_each]. unfold bind.
    destruct (run_step_effect st s) as (b1 & w1 & sd1 & evs1 & Hrun & Hsd).
    rewrite Hrun.
    match goal with
    | |- context [for_each sc run_step ?s1] =>
      destruct (IH s1) as (b2 & w2 & sd2 & evs2 & Hrun2 & Hsd2)
    end.
    cbn [self params trace shutdown] in *. rewrite Hrun2.
    exists b2, w2, sd2, (evs1 ++ evs2). rewrite <- app_assoc.
    split; [destruct (self s); reflexivity | auto].
Qed.

(** ** Further properties of the control cycle and of the handlers *)

(** X1.  While the node is not shut down the loop does not leave: [fuel]
    iterations make [fuel] sleeps, and [fuel] publishes and simulation steps
    when the flag is down, none when it is up; the engine is not
    disconnected, and the object is left as it was. *)
Theorem control_cycle_runs_until_shutdown (fuel : nat) (s : Sys W) :
  shutdown s = false ->
  let run := start_pybullet_ros_wrapper fuel in
  fst (run s) = Ok StillRunning /\
  self (snd (run s)) = self s /\
  shutdown (snd (run s)) = false /\
  count_events is_RateSleep (new_events run s) = fuel /\
  count_events is_StepSimulation (new_events run s)
  = (if pause_simulation (self s) then 0 else fuel)%nat /\
  count_events is_Publish (new_events run s)
  = (if pause_simulation (self s) then 0 else fuel)%nat /\
  count_events is_Disconnect (new_events run s) = O.
Proof.
  intros Hsd. cbv zeta. unfold new_events.
  destruct (loop_iterations fuel s Hsd)
    as (w' & evs & Hrun & Hsl & Hst & Hpu & Hdi).
  rewrite Hrun. cbn [fst snd self shutdown trace].
  rewrite skipn_length_app. auto 10.
Qed.

(** X2.  A node that is shut down when the loop tests the flag runs no
    iteration: the only call is the disconnection of the engine. *)
Theorem shut_down_node_only_disconnects (fuel : nat) (s : Sys W) :
  shutdown s = true ->
  fst (start_pybullet_ros_wrapper (S fuel) s) = Ok Disconnected /\
  new_events (start_pybullet_ros_wrapper (S fuel)) s = [Disconnect] /\
  self (snd (start_pybullet_ros_wrapper (S fuel) s)) = self s.
Proof.
  intros Hsd. unfold new_events.
  rewrite (start_pybullet_ros_wrapper_exit fuel s Hsd).
  cbn [fst snd self trace]. rewrite skipn_length_app. auto.
Qed.

(** X3.  Whatever requests come in and however many iterations run, when
    the scenario completes the trace has only grown, the parameters are not
    touched, a requested shutdown stays requested, and of the object only
    the pause flag can have changed: rate, robot handle, joint table and
    plugin list are those of the start. *)
Theorem scenario_keeps_configuration (sc : list Step) (s : Sys W) :
  fst (run_scenario sc s) = Ok tt ->
  configuration (self (snd (run_scenario sc s))) = configuration (self s) /\
  params (snd (run_scenario sc s)) = params s /\
  (shutdown s = true -> shutdown (snd (run_scenario sc s)) = true) /\
  exists evs, trace (snd (run_scenario sc s)) = trace s ++ evs.
Proof.
  intros _.
  destruct (run_scenario_effect sc s) as (b & w' & sd' & evs & Hrun & Hsd).
  rewrite Hrun. cbn [fst snd self params shutdown trace].
  repeat split; eauto.
Qed.

(** X4.  The pause flag after a request whose handler has completed is
    decided by that request alone, whatever happened before: up after
    [unpause_physics], down after [pause_physics] and after
    [reset_simulation]. *)
Theorem last_request_decides_the_flag (sc : list Step) (r : Request)
        (s : Sys W) :
  fst (run_scenario (sc ++ [Incoming r]) s) = Ok tt ->
  pause_simulation (self (snd (run_scenario (sc ++ [Incoming r]) s)))
  = match r with unpause_physics => true | _ => false end.
Proof.
  intros _.
  unfold run_scenario. rewrite for_each_app.
  destruct (run_scenario_effect sc s) as (b & w' & sd' & evs & Hrun & _).
  unfold run_scenario in Hrun. rewrite Hrun.
  destruct r; cbn [for_each run_step serve]; unfold bind.
  - rewrite handle_reset_simulation_run. reflexivity.
  - rewrite handle_pause_physics_run. reflexivity.
  - rewrite handle_unpause_physics_run. reflexivity.
Qed.

Lemma dict_values_length {V} (d : dict V) :
  List.length (dict_values d) = List.length d.
Proof.
  unfold dict_values.
  assert (G : forall ks, (forall k, In k ks -> In k (dict_keys d)) ->
            List.length
              (flat_map (fun k => match dict_get d k with
                                  | Some v => [v] | None => @nil V end) ks)
            = List.length ks).
  { induction ks as [|k ks IH]; intros Hin; [reflexivity|].
    cbn [flat_map]. rewrite length_app.
    destruct (dict_get_In_keys d k) as [v Hv]; [apply Hin; now left|].
    rewrite Hv. cbn. f_equal. apply IH. intros k' Hk'. apply Hin.
    now right. }
  rewrite G by auto. unfold dict_keys. apply length_map.
Qed.

(** X5.  Every message an iteration publishes has one name, one position,
    one velocity and one effort per entry of the joint table: the four
    lists are as long as the table. *)
Theorem published_lists_are_parallel (s : Sys W) (msg : JointState) :
  In (Publish msg) (new_events loop_body s) ->
  let n := List.length (joint_index_name_dic (self s)) in
  List.length (name msg) = n /\
  List.length (position msg) = n /\
  List.length (velocity msg) = n /\
  List.length (effort msg) = n.
Proof.
  unfold new_events. destruct (pause_simulation (self s)) eqn:Hp.
  - rewrite (loop_body_paused s Hp). cbn [snd trace].
    rewrite skipn_length_app. intros [H|[]]. discriminate.
  - rewrite (loop_body_running s Hp). cbv zeta. cbn [snd trace].
    rewrite skipn_length_app. rewrite !in_app_iff. cbn [In].
    intros [H|[[H|[H|[]]]|[H|[H|[H|[]]]]]]; try discriminate.
    + apply in_map_iff in H. destruct H as [k [H _]]. discriminate.
    + injection H as <-. cbn [name position velocity effort].
      rewrite dict_values_length. unfold dict_keys.
      rewrite !length_map. auto.
    + apply in_map_iff in H. destruct H as [k [H _]]. discriminate.
Qed.

(** X6.  When a reset and the iteration that follows it complete, that
    iteration has worked, also on a node that was paused: it has published
    once and stepped once, and it has read the joint states with the robot
    handle and the joint table from before the reset, in the world the
    reset left. *)
Theorem iteration_after_reset_uses_old_handle_and_table (s : Sys W) :
  fst (run_scenario [Incoming reset_simulation; Iteration] s) = Ok tt ->
  let sc := [Incoming reset_simulation; Iteration] in
  let o := self s in
  let w := world (snd (handle_reset_simulation s)) in
  filter is_GetJointState (new_events (run_scenario sc) s)
  = map (fun k => GetJointState (robot o) k (pb_getJointState (robot o) k w))
        (dict_keys (joint_index_name_dic o)) /\
  count_events is_Publish (new_events (run_scenario sc) s) = 1%nat /\
  count_events is_StepSimulation (new_events (run_scenario sc) s) = 1%nat.
Proof.
  intros _.
  cbv zeta. unfold run_scenario, new_events.
  cbn [for_each run_step serve]. unfold bind.
  rewrite handle_reset_simulation_run. cbv zeta. unfold ret.
  rewrite init_pybullet_robot_run. cbv zeta.
  cbn [snd self world params shutdown trace].
  match goal with
  | |- context [loop_body ?s1] =>
    rewrite (loop_body_running s1 eq_refl)
  end.
  cbv zeta.
  cbn [snd fst self world params shutdown trace set_pause_simulation
       robot joint_index_name_dic plugins loop_rate].
  rewrite <- !app_assoc, skipn_length_app.
  assert (Hq : forall (b : Z) (f : Z -> JointStateTuple) (ks : list Z),
             filter is_GetJointState (map (fun k => GetJointState b k (f k)) ks)
             = map (fun k => GetJointState b k (f k)) ks).
  { intros b f ks. induction ks as [|k ks IH]; cbn; [reflexivity|].
    now rewrite IH. }
  assert (Hx : forall ps, filter is_GetJointState (map PluginExecute ps) = []).
  { induction ps as [|x ps IH]; cbn; auto. }
  split; [|split].
  - rewrite !filter_app, Hq, Hx.
    destruct (eq_None _); cbn; now rewrite app_nil_r.
  - rewrite !count_events_app.
    rewrite !count_events_map_none by reflexivity.
    destruct (eq_None _); reflexivity.
  - rewrite !count_events_app.
    rewrite !count_events_map_none by reflexivity.
    destruct (eq_None _); reflexivity.
Qed.

(** ** Further properties of the world set-up *)

Lemma init_pybullet_robot_requests (s s0 : Sys W) :
  params s0 = params s ->
  map erase_handle (new_events init_pybullet_robot s)
  = map erase_handle (new_events init_pybullet_robot s0).
Proof.
  intros Hps. unfold new_events. rewrite !init_pybullet_robot_run.
  cbv zeta. cbn [snd trace]. rewrite !skipn_length_app, Hps.
  rewrite !map_app. reflexivity.
Qed.

(** X7.  The reset handler logs, empties the engine, and then asks the
    engine for the same world as the start-up did, call for call and
    argument for argument, the parameters being the same; only the handles
    the engine answers with can differ. *)
Theorem reset_repeats_the_world_setup (s s0 : Sys W) :
  params s0 = params s ->
  map erase_handle (new_events handle_reset_simulation s)
  = [Loginfo "reseting simulation now" []; ResetSimulation]
      ++ map erase_handle (new_events init_pybullet_robot s0).
Proof.
  intros Hps.
  set (s1 := mkSys (set_pause_simulation true (self s))
                   (pb_resetSimulation (world s)) (params s) (shutdown s)
                   (trace s ++ [Loginfo "reseting simulation now" [];
                                ResetSimulation])).
  rewrite <- (init_pybullet_robot_requests s1 s0) by exact Hps.
  unfold new_events. rewrite handle_reset_simulation_run. cbv zeta.
  fold s1. rewrite init_pybullet_robot_run. cbv zeta.
  cbn [snd trace]. unfold s1 at 1 3. cbn [trace].
  rewrite <- !app_assoc, !skipn_length_app.
  rewrite !map_app. reflexivity.
Qed.

Lemma land_lor_absorb (a b : Z) : Z.land (Z.lor a b) b = b.
Proof.
  apply Z.bits_inj'. intros n Hn.
  rewrite Z.land_spec, Z.lor_spec.
  destruct (Z.testbit a n), (Z.testbit b n); reflexivity.
Qed.

(** X8.  The flags of every robot load contain the self-collision flag,
    whatever the parameters: the flags are that flag alone, or that flag
    or-ed with the inertia-from-file flag. *)
Theorem self_collision_is_always_enabled (s : Sys W) (path : PyVal)
        (kw : URDFArgs) (h : Z) :
  In (LoadURDF path (Some kw) h) (new_events init_pybullet_robot s) ->
  Z.land (flags kw) URDF_USE_SELF_COLLISION = URDF_USE_SELF_COLLISION /\
  (flags kw = URDF_USE_SELF_COLLISION \/
   flags kw = Z.lor URDF_USE_INERTIA_FROM_FILE URDF_USE_SELF_COLLISION).
Proof.
  unfold new_events. rewrite init_pybullet_robot_run. cbv zeta.
  cbn [snd trace]. rewrite skipn_length_app, in_app_iff. cbn [In].
  intros [H|[H|[H|[H|[H|[H|[]]]]]]]; try discriminate.
  - destruct (eq_None _); cbn in H; [destruct H as [H|[]]|destruct H];
      discriminate.
  - injection H as _ <- _. cbn [flags].
    destruct (truthy _).
    + split; [apply land_lor_absorb | now right].
    + split; [apply Z.land_diag | now left].
Qed.

(** X9.  With the robot description path set, a world set-up that returns
    has signalled no shutdown, has left the shutdown flag as it was, and has
    loaded the robot once, from that path; the handle it returns is the one
    that load returned. *)
Theorem robot_path_set_means_no_shutdown (s : Sys W) (p : string) (h : Z) :
  param_value (params s) "~robot_urdf_path" PyNone = PyStr p ->
  fst (init_pybullet_robot s) = Ok h ->
  count_events is_SignalShutdown (new_events init_pybullet_robot s) = O /\
  shutdown (snd (init_pybullet_robot s)) = shutdown s /\
  exists kw,
    filter is_robot_load (new_events init_pybullet_robot s)
    = [LoadURDF (PyStr p) (Some kw) h].
Proof.
  intros Hp Hret.
  destruct (init_pybullet_robot_events s)
    as (euler & q & gravity & h0 & kw & h' & Hok & _ & Hsd & Hev).
  rewrite Hok in Hret. injection Hret as ->.
  rewrite Hp in Hsd, Hev. cbn [eq_None app] in Hsd, Hev.
  rewrite Hev, Hsd. split; [reflexivity|]. split; [reflexivity|].
  exists kw. reflexivity.
Qed.

(** X10.  With none of the pose, base, inertia and gravity parameters set,
    the world is set up with the defaults of the code: gravity -9.81 along
    z, the robot at (0, 0, 1) with yaw 0, a free base, and the
    self-collision flag alone. *)
Theorem world_setup_defaults (s : Sys W) :
  str_lookup "~robot_pose_x" (params s) = None ->
  str_lookup "~robot_pose_y" (params s) = None ->
  str_lookup "~robot_pose_z" (params s) = None ->
  str_lookup "~robot_pose_yaw" (params s) = None ->
  str_lookup "~fixed_base" (params s) = None ->
  str_lookup "~use_intertia_from_file" (params s) = None ->
  str_lookup "~gravity" (params s) = None ->
  let euler := [PyFloat 0.0; PyFloat 0.0; PyFloat 0.0] in
  let q := pb_getQuaternionFromEuler euler in
  exists pre h0 h,
    new_events init_pybullet_robot s =
    pre ++
    [GetQuaternionFromEuler euler q;
     SetGravity (PyInt 0) (PyInt 0) (PyFloat (-9.81));
     LoadURDF (PyStr "plane.urdf") None h0;
     SetRealTimeSimulation 0;
     LoadURDF (param_value (params s) "~robot_urdf_path" PyNone)
              (Some (mkURDFArgs [PyFloat 0.0; PyFloat 0.0; PyFloat 1.0]
                                q (PyBool false) URDF_USE_SELF_COLLISION))
              h].
Proof.
  intros Hx Hy Hz Hyaw Hfb Hin Hg. cbv zeta.
  unfold new_events. rewrite init_pybullet_robot_run. cbv zeta.
  cbn [snd trace]. rewrite skipn_length_app.
  unfold param_value at 2 3 4 5 6 7 8 9 10 11 12 13.
  rewrite ?Hx, ?Hy, ?Hz, ?Hyaw, ?Hfb, ?Hin, ?Hg. cbn [truthy].
  do 3 eexists. reflexivity.
Qed.

(** ** Further properties of the joint table *)

Lemma for_fold_app {A B} (xs ys : list A) (body : B -> A -> M W B) (b : B)
      (s : Sys W) :
  for_fold (xs ++ ys) body b s =
  match for_fold xs body b s with
  | (Ok b', s') => for_fold ys body b' s'
  | (Raise e, s') => (Raise e, s')
  end.
Proof.
  revert b s. induction xs as [|x xs IH]; intros b s; [reflexivity|].
  cbn [app for_fold]. unfold bind.
  destruct (body b x s) as [[b1|e] s1]; [apply IH | reflexivity].
Qed.

Lemma range_empty (lo hi : Z) : hi <= lo -> range lo hi = [].
Proof.
  intros H. unfold range. replace (Z.to_nat (hi - lo)) with O by lia.
  reflexivity.
Qed.

Lemma map_seq_from {A} (f : nat -> A) (a b : nat) :
  map f (seq a b) = map (fun i => f (a + i)%nat) (seq 0 b).
Proof.
  revert a f. induction b as [|b IH]; intros a f; [reflexivity|].
  cbn [seq map]. rewrite Nat.add_0_r. f_equal.
  rewrite (IH (S a) f), (IH 1%nat (fun i => f (a + i)%nat)).
  apply map_ext. intros i. f_equal. lia.
Qed.

Lemma range_app (lo mid hi : Z) :
  lo <= mid <= hi -> range lo hi = range lo mid ++ range mid hi.
Proof.
  intros H. unfold range.
  replace (Z.to_nat (hi - lo))
    with (Z.to_nat (mid - lo) + Z.to_nat (hi - mid))%nat by lia.
  rewrite seq_app, map_app. f_equal. cbn [Nat.add].
  rewrite map_seq_from. apply map_ext. intros i. lia.
Qed.

Lemma range_cons (lo hi : Z) :
  lo < hi -> range lo hi = lo :: range (lo + 1) hi.
Proof.
  intros H. rewrite (@range_app lo (lo + 1) hi) by lia.
  unfold range at 1. replace (Z.to_nat (lo + 1 - lo)) with 1%nat by lia.
  cbn. f_equal. lia.
Qed.

(** In the table, or raising, the method only asks: the object, the world,
    the parameters and the shutdown flag are as before, and the new events
    are the count of the joints and reads of joint descriptions. *)
Lemma revolute_joint_loop_frame (body : Z) (js : list Z) :
  forall (d0 : dict text) (s : Sys W),
  exists qs,
    snd (for_fold js (revolute_joint_step body) d0 s)
    = mkSys (self s) (world s) (params s) (shutdown s) (trace s ++ qs) /\
    forallb is_GetJointInfo qs = true.
Proof.
  induction js as [|j js IH]; intros d0 s.
  - exists []. rewrite app_nil_r. destruct s. split; reflexivity.
  - cbn [for_fold]. unfold bind. rewrite revolute_joint_step_run.
    cbv zeta.
    destruct (jointType _ =? 0);
      [destruct (decode_utf8 _)|].
    + match goal with
      | |- context [for_fold js _ ?d ?s1] =>
        destruct (IH d s1) as [qs [Hs Hq]]
      end.
      rewrite Hs. cbn [self world params shutdown trace].
      eexists (_ :: qs). rewrite <- app_assoc. split; [reflexivity|].
      cbn. exact Hq.
    + eexists [_]. split; reflexivity.
    + match goal with
      | |- context [for_fold js _ ?d ?s1] =>
        destruct (IH d s1) as [qs [Hs Hq]]
      end.
      rewrite Hs. cbn [self world params shutdown trace].
      eexists (_ :: qs). rewrite <- app_assoc. split; [reflexivity|].
      cbn. exact Hq.
Qed.

Lemma get_all_revolute_joint_names_frame (s : Sys W) :
  exists qs,
    snd (get_all_revolute_joint_names s)
    = mkSys (self s) (world s) (params s) (shutdown s)
            (trace s ++
             GetNumJoints (robot (self s))
                          (pb_getNumJoints (robot (self s)) (world s))
             :: qs) /\
    forallb is_GetJointInfo qs = true.
Proof.
  rewrite get_all_revolute_joint_names_unfold. cbv zeta.
  match goal with
  | |- context [for_fold ?js _ ?d ?s1] =>
    destruct (revolute_joint_loop_frame (robot (self s)) js d s1)
      as [qs [Hs Hq]]
  end.
  exists qs. rewrite Hs. cbn [self world params shutdown trace].
  rewrite <- app_assoc. split; [reflexivity | exact Hq].
Qed.

Lemma get_all_revolute_joint_names_ok_run (s : Sys W) :
  let body := robot (self s) in
  let w := world s in
  let n := pb_getNumJoints body w in
  (forall j, In j (range 0 n) ->
             jointType (pb_getJointInfo body j w) = 0 ->
             decode_utf8 (jointName (pb_getJointInfo body j w)) <> None) ->
  get_all_revolute_joint_names s =
  (Ok (flat_map (revolute_entry body w) (range 0 n)),
   mkSys (self s) w (params s) (shutdown s)
         (trace s ++
          GetNumJoints body n
          :: map (fun j => GetJointInfo body j (pb_getJointInfo body j w))
                 (range 0 n))).
Proof.
  cbv zeta. intros Hgood.
  rewrite get_all_revolute_joint_names_unfold. cbv zeta.
  match goal with
  | |- context [for_fold _ _ _ ?s1] =>
    destruct (revolute_joint_loop (robot (self s))
                (range_NoDup 0 (pb_getNumJoints (robot (self s)) (world s)))
                [] s1)
      as [[Hrun _]|[_ Hbad]]
  end.
  { intros j _ []. }
  - cbn [self world params shutdown trace] in Hrun. rewrite Hrun.
    cbn [app]. now rewrite <- app_assoc.
  - cbn [world] in Hbad. destruct Hbad as [j [Hj [Ht Hd]]].
    exfalso. exact (Hgood j Hj Ht Hd).
Qed.

(** X11.  For a robot the engine reports no joint for (a count of zero, or
    below), the table is empty and the engine is asked for the count only. *)
Theorem robot_without_joints_gives_empty_table (s : Sys W) :
  pb_getNumJoints (robot (self s)) (world s) <= 0 ->
  get_all_revolute_joint_names s =
  (Ok [],
   mkSys (self s) (world s) (params s) (shutdown s)
         (trace s ++
          [GetNumJoints (robot (self s))
                        (pb_getNumJoints (robot (self s)) (world s))])).
Proof.
  intros Hn. rewrite get_all_revolute_joint_names_ok_run.
  - rewrite range_empty by lia. reflexivity.
  - rewrite range_empty by lia. intros j [].
Qed.

(** X12.  When the table is built, the method has asked the engine for the
    joint count once and then for the description of every joint, each
    once, in index order, and has changed nothing: object, world,
    parameters and shutdown flag are as before. *)
Theorem joint_table_queries (s : Sys W) (d : dict text) :
  fst (get_all_revolute_joint_names s) = Ok d ->
  let body := robot (self s) in
  let w := world s in
  let n := pb_getNumJoints body w in
  new_events get_all_revolute_joint_names s
  = GetNumJoints body n
    :: map (fun j => GetJointInfo body j (pb_getJointInfo body j w))
           (range 0 n) /\
  self (snd (get_all_revolute_joint_names s)) = self s /\
  world (snd (get_all_revolute_joint_names s)) = w /\
  params (snd (get_all_revolute_joint_names s)) = params s /\
  shutdown (snd (get_all_revolute_joint_names s)) = shutdown s.
Proof.
  intros Hd. cbv zeta.
  destruct (get_all_revolute_joint_names_cases s)
    as [[_ Hgood]|[Hrun _]]; [|congruence].
  unfold new_events.
  rewrite (get_all_revolute_joint_names_ok_run s Hgood).
  cbn [snd self world params shutdown trace].
  rewrite skipn_length_app. auto.
Qed.

(** X13.  A revolute joint whose name is not valid UTF-8 aborts the method
    at that joint: it raises [UnicodeDecodeError], the description of that
    joint is the last thing it asked for, no later joint is looked at, and
    the object is unchanged. *)
Theorem undecodable_name_aborts_at_that_joint (s : Sys W) (j : Z) :
  let body := robot (self s) in
  let w := world s in
  let n := pb_getNumJoints body w in
  0 <= j < n ->
  jointType (pb_getJointInfo body j w) = 0 ->
  decode_utf8 (jointName (pb_getJointInfo body j w)) = None ->
  (forall i, 0 <= i < j ->
             jointType (pb_getJointInfo body i w) = 0 ->
             decode_utf8 (jointName (pb_getJointInfo body i w)) <> None) ->
  fst (get_all_revolute_joint_names s) = Raise UnicodeDecodeError /\
  new_events get_all_revolute_joint_names s
  = GetNumJoints body n
    :: map (fun i => GetJointInfo body i (pb_getJointInfo body i w))
           (range 0 (j + 1)) /\
  self (snd (get_all_revolute_joint_names s)) = self s.
Proof.
  cbv zeta. intros Hj Ht Hd Hbefore.
  unfold new_events.
  rewrite get_all_revolute_joint_names_unfold. cbv zeta.
  set (body := robot (self s)) in *. set (w := world s) in *.
  set (n := pb_getNumJoints body w) in *.
  rewrite (@range_app 0 j n) by lia. rewrite (@range_cons j n) by lia.
  rewrite for_fold_app.
  match goal with
  | |- context [for_fold (range 0 j) _ _ ?s1] =>
    destruct (revolute_joint_loop body (range_NoDup 0 j) [] s1)
      as [[Hrun _]|[_ Hbad]]
  end.
  { intros i _ []. }
  - cbn [self world params shutdown trace] in Hrun. rewrite Hrun.
    cbn [for_fold]. unfold bind. rewrite revolute_joint_step_run.
    cbv zeta. cbn [self world params shutdown trace].
    fold w. rewrite Ht, Hd. cbn [Z.eqb fst snd self trace].
    rewrite <- !app_assoc, skipn_length_app.
    rewrite (@range_app 0 j (j + 1)) by lia.
    rewrite (@range_cons j (j + 1)) by lia.
    rewrite (@range_empty (j + 1) (j + 1)) by lia.
    rewrite map_app. repeat split; reflexivity.
  - cbn [world] in Hbad. destruct Hbad as [i [Hi [Hti Hdi]]].
    apply range_In in Hi. exfalso. exact (Hbefore i Hi Hti Hdi).
Qed.

Lemma decode_utf8_ascii (bs : list byte) :
  Forall (fun b => byte_val b < 0x80) bs ->
  decode_utf8 bs = Some (map byte_val bs).
Proof.
  induction 1 as [|b bs Hb _ IH]; [reflexivity|].
  cbn [decode_utf8 map]. cbv zeta.
  destruct (Z.ltb_spec (byte_val b) 0x80) as [_|Hge]; [|lia].
  rewrite IH. reflexivity.
Qed.

(** X14.  When the names of the revolute joints are plain ASCII the table
    is always built, and the name it holds for a joint is the sequence of
    the byte values of the name the engine reported. *)
Theorem ascii_names_always_decode (s : Sys W) :
  let body := robot (self s) in
  let w := world s in
  let n := pb_getNumJoints body w in
  (forall i, 0 <= i < n ->
             jointType (pb_getJointInfo body i w) = 0 ->
             Forall (fun b => byte_val b < 0x80)
                    (jointName (pb_getJointInfo body i w))) ->
  exists d,
    fst (get_all_revolute_joint_names s) = Ok d /\
    forall i nm,
      dict_get d i = Some nm <->
      0 <= i < n /\ jointType (pb_getJointInfo body i w) = 0 /\
      nm = map byte_val (jointName (pb_getJointInfo body i w)).
Proof.
  cbv zeta. intros Hascii.
  rewrite get_all_revolute_joint_names_ok_run.
  - eexists. split; [reflexivity|]. intros i nm.
    rewrite revolute_entry_get, range_In. split.
    + intros [Hi [Ht Hd]]. rewrite (decode_utf8_ascii (Hascii i Hi Ht)) in Hd.
      injection Hd as <-. auto.
    + intros [Hi [Ht ->]]. rewrite (decode_utf8_ascii (Hascii i Hi Ht)).
      auto.
  - intros i Hi Ht. apply range_In in Hi.
    rewrite (decode_utf8_ascii (Hascii i Hi Ht)). discriminate.
Qed.

(** ** Start-up *)

Lemma start_gui_run (gui : PyVal) (s : Sys W) :
  let mode := if truthy gui then GUI else DIRECT in
  start_gui gui s =
  (Ok (fst (pb_connect mode (world s))),
   mkSys (self s) (snd (pb_connect mode (world s))) (params s) (shutdown s)
         (trace s ++
          [Loginfo (if truthy gui then "Running pybullet with gui"
                    else "Running pybullet without gui") [];
           Loginfo "-------------------------" [];
           Connect mode (fst (pb_connect mode (world s)))])).
Proof.
  destruct s as [o w pr sd tr]. cbv zeta. unfold start_gui.
  destruct (truthy gui); run_cbv; rewrite <- !app_assoc; reflexivity.
Qed.

(** The class a key of the plugin dictionary is bound to. *)
Lemma load_plugins_run (items : list (string * string)) (keys : list string) :
  forall s : Sys W,
    (forall k, In k keys -> str_lookup k items <> None) ->
    let cls := fun k => match str_lookup k items with
                        | Some c => c | None => EmptyString end in
    let mk := fun k => mkPlugin k (cls k) (robot (self s))
                                (joint_index_name_dic (self s)) in
    for_each keys (load_plugin items) s =
    (Ok tt,
     mkSys (set_plugins (plugins (self s) ++ map mk keys) (self s))
           (fold_left (fun w p => plugin_init p w) (map mk keys) (world s))
           (params s) (shutdown s)
           (trace s ++
            flat_map (fun k => [Loginfo "loading %s class from %s plugin"
                                        [cls k; k];
                                PluginNew (mk k)]) keys)).
Proof.
  induction keys as [|k keys IH]; intros [o w pr sd tr] Hin; cbv zeta.
  - cbn. rewrite !app_nil_r. destruct o. reflexivity.
  - cbn [for_each]. unfold bind at 1. unfold load_plugin at 1.
    destruct (str_lookup k items) as [c|] eqn:Hk;
      [|exfalso; apply (Hin k); [now left | exact Hk]].
    run_cbv.
    rewrite IH by (intros k' Hk'; apply Hin; now right).
    cbv zeta. cbn [self world params shutdown trace set_plugins robot
                   joint_index_name_dic plugins map fold_left flat_map].
    rewrite Hk. rewrite <- !app_assoc. cbn [app]. reflexivity.
Qed.

Lemma str_lookup_In_keys {V} (k : string) (kvs : list (string * V)) :
  In k (map fst kvs) -> str_lookup k kvs <> None.
Proof.
  induction kvs as [|[k' v] kvs IH]; cbn; [tauto|].
  intros [Hk|Hk].
  - subst k'. rewrite String.eqb_refl. discriminate.
  - destruct (String.eqb k' k); [discriminate | auto].
Qed.

(** The ways [__init__] can end: with the object built, or raising at the
    joint table or at the plugin dictionary.  [h] is the handle of the
    robot, [w1] the world after the world set-up. *)
Lemma __init__run_cases (s : Sys W) :
  let pr := params s in
  let gui := param_value pr "~pybullet_gui" (PyBool true) in
  let mode := if truthy gui then GUI else DIRECT in
  let dic := param_value pr "~plugins" (PyDict []) in
  let path := param_value pr "~robot_urdf_path" PyNone in
  let w0 := pb_setAdditionalSearchPath (snd (pb_connect mode (world s))) in
  (exists items h0 kw euler q g,
      let loaded :=
        pb_loadURDF path (Some kw)
          (pb_setRealTimeSimulation 0
             (snd (pb_loadURDF (PyStr "plane.urdf") None
                               (pb_setGravity (PyInt 0) (PyInt 0) g w0)))) in
      let h := fst loaded in
      let w1 := snd loaded in
      (dic = PyDict items \/ (dic = PyStr EmptyString /\ items = [])) /\
      (forall j, In j (range 0 (pb_getNumJoints h w1)) ->
                 jointType (pb_getJointInfo h j w1) = 0 ->
                 decode_utf8 (jointName (pb_getJointInfo h j w1)) <> None) /\
      let d := flat_map (revolute_entry h w1)
                        (range 0 (pb_getNumJoints h w1)) in
      let cls := fun k => match str_lookup k items with
                          | Some c => c | None => EmptyString end in
      let mk := fun k => mkPlugin k (cls k) h d in
      __init__ s =
      (Ok tt,
       mkSys (mkWrapper
                (param_value pr "~loop_rate" (PyFloat 80.0))
                (truthy (param_value pr "~pause_simulation" (PyBool false)))
                h d (map mk (map fst items)))
             (fold_left (fun w p => plugin_init p w)
                        (map mk (map fst items)) w1)
             pr
             (if eq_None path then true else shutdown s)
             (trace s ++
              [NewPublisher "joint_states" 1;
               Print (ESC ++ "[34m");
               Loginfo (if truthy gui then "Running pybullet with gui"
                        else "Running pybullet without gui") [];
               Loginfo "-------------------------" [];
               Connect mode (fst (pb_connect mode (world s)));
               NewService "~reset_simulation";
               NewService "~pause_physics";
               NewService "~unpause_physics";
               SetAdditionalSearchPath] ++
              (if eq_None path
               then [SignalShutdown
                       "mandatory param robot_urdf_path not set, will exit now"]
               else []) ++
              [GetQuaternionFromEuler euler q;
               SetGravity (PyInt 0) (PyInt 0) g;
               LoadURDF (PyStr "plane.urdf") None h0;
               SetRealTimeSimulation 0;
               LoadURDF path (Some kw) h;
               GetNumJoints h (pb_getNumJoints h w1)] ++
              map (fun j => GetJointInfo h j (pb_getJointInfo h j w1))
                  (range 0 (pb_getNumJoints h w1)) ++
              (if negb (truthy dic)
               then [Logwarn "No plugins found, forgot to set param ~plugins?"]
               else []) ++
              [Print (ESC ++ "[0m")] ++
              flat_map (fun k => [Loginfo "loading %s class from %s plugin"
                                          [cls k; k];
                                  PluginNew (mk k)]) (map fst items) ++
              [Loginfo "pybullet ROS wrapper started" []])))
  \/ fst (__init__ s) = Raise UnicodeDecodeError
  \/ fst (__init__ s) = Raise TypeError.
Proof.
  destruct s as [o w pr sd tr]. cbv zeta.
  cbn [self world params shutdown trace].
  remember (__init__ (mkSys o w pr sd tr)) as R eqn:HR.
  unfold __init__ in HR.
  cbv beta iota zeta delta
      [emit call act ask attr assign get_param is_shutdown signal_shutdown
       loginfo logwarn print Time_now Publisher Service publish Rate_sleep
       connect disconnect setAdditionalSearchPath getQuaternionFromEuler
       setGravity loadURDF setRealTimeSimulation resetSimulation
       getNumJoints getJointInfo getJointState stepSimulation new_plugin
       execute bind ret raise
       self world params shutdown trace] in HR.
  rewrite start_gui_run in HR. cbv beta iota zeta in HR.
  cbn [self world params shutdown trace] in HR.
  rewrite init_pybullet_robot_run in HR. cbv beta iota zeta in HR.
  cbn [self world params shutdown trace] in HR.
  match type of HR with
  | context [get_all_revolute_joint_names ?x] => set (S1 := x) in HR
  end.
  destruct (get_all_revolute_joint_names_cases S1)
    as [[_ Hgood]|[Hrun _]].
  2:{ right. left. subst R.
      destruct (get_all_revolute_joint_names S1) as [[d|e] s2];
        cbn [fst] in Hrun; [discriminate|].
      injection Hrun as ->. reflexivity. }
  rewrite (get_all_revolute_joint_names_ok_run S1 Hgood) in HR.
  cbv beta iota zeta in HR.
  unfold S1 in HR, Hgood.
  cbn [self world params shutdown trace robot set_robot
       set_pause_simulation set_loop_rate] in HR, Hgood.
  clear S1.
  destruct (negb (truthy (param_value pr "~plugins" (PyDict []))));
    cbv beta iota in HR;
    (destruct (param_value pr "~plugins" (PyDict []))
      as [| | | |str|items];
     [ right; right; subst R; reflexivity
     | right; right; subst R; reflexivity
     | right; right; subst R; reflexivity
     | right; right; subst R; reflexivity
     | destruct str as [|c str];
       [ left; exists []
       | right; right; subst R; reflexivity ]
     | left; exists items;
       rewrite load_plugins_run in HR
         by (intros k Hk; now apply str_lookup_In_keys);
       cbv beta iota zeta in HR ]);
    do 5 eexists; cbv zeta;
    (split; [first [left; reflexivity | right; split; reflexivity]|]);
    (split; [exact Hgood|]);
    subst R; destruct o;
    cbn [self world params shutdown trace set_plugins
         set_joint_index_name_dic set_robot set_pause_simulation
         set_loop_rate robot joint_index_name_dic plugins loop_rate
         pause_simulation map fold_left flat_map app];
    repeat (rewrite <- ?app_assoc; cbn [app]);
    reflexivity.
Qed.

Lemma __init__cases (s : Sys W) :
  let pr := params s in
  let gui := param_value pr "~pybullet_gui" (PyBool true) in
  let mode := if truthy gui then GUI else DIRECT in
  let dic := param_value pr "~plugins" (PyDict []) in
  let path := param_value pr "~robot_urdf_path" PyNone in
  (exists items h0 h kw euler q g w1,
      (dic = PyDict items \/ (dic = PyStr EmptyString /\ items = [])) /\
      (forall j, In j (range 0 (pb_getNumJoints h w1)) ->
                 jointType (pb_getJointInfo h j w1) = 0 ->
                 decode_utf8 (jointName (pb_getJointInfo h j w1)) <> None) /\
      let d := flat_map (revolute_entry h w1)
                        (range 0 (pb_getNumJoints h w1)) in
      let cls := fun k => match str_lookup k items with
                          | Some c => c | None => EmptyString end in
      let mk := fun k => mkPlugin k (cls k) h d in
      __init__ s =
      (Ok tt,
       mkSys (mkWrapper
                (param_value pr "~loop_rate" (PyFloat 80.0))
                (truthy (param_value pr "~pause_simulation" (PyBool false)))
                h d (map mk (map fst items)))
             (fold_left (fun w p => plugin_init p w)
                        (map mk (map fst items)) w1)
             pr
             (if eq_None path then true else shutdown s)
             (trace s ++
              [NewPublisher "joint_states" 1;
               Print (ESC ++ "[34m");
               Loginfo (if truthy gui then "Running pybullet with gui"
                        else "Running pybullet without gui") [];
               Loginfo "-------------------------" [];
               Connect mode (fst (pb_connect mode (world s)));
               NewService "~reset_simulation";
               NewService "~pause_physics";
               NewService "~unpause_physics";
               SetAdditionalSearchPath] ++
              (if eq_None path
               then [SignalShutdown
                       "mandatory param robot_urdf_path not set, will exit now"]
               else []) ++
              [GetQuaternionFromEuler euler q;
               SetGravity (PyInt 0) (PyInt 0) g;
               LoadURDF (PyStr "plane.urdf") None h0;
               SetRealTimeSimulation 0;
               LoadURDF path (Some kw) h;
               GetNumJoints h (pb_getNumJoints h w1)] ++
              map (fun j => GetJointInfo h j (pb_getJointInfo h j w1))
                  (range 0 (pb_getNumJoints h w1)) ++
              (if negb (truthy dic)
               then [Logwarn "No plugins found, forgot to set param ~plugins?"]
               else []) ++
              [Print (ESC ++ "[0m")] ++
              flat_map (fun k => [Loginfo "loading %s class from %s plugin"
                                          [cls k; k];
                                  PluginNew (mk k)]) (map fst items) ++
              [Loginfo "pybullet ROS wrapper started" []])))
  \/ fst (__init__ s) = Raise UnicodeDecodeError
  \/ fst (__init__ s) = Raise TypeError.
Proof.
  cbv zeta.
  destruct (__init__run_cases s)
    as [(items & h0 & kw & euler & q & g & Hcase & Hgood & Hrun)|Hraise];
    [|right; exact Hraise].
  cbv zeta in Hcase, Hgood, Hrun.
  left. exists items, h0. do 6 eexists.
  split; [exact Hcase|]. split; [exact Hgood | exact Hrun].
Qed.


Lemma filter_map_none {A} (p : Event -> bool) (f : A -> Event)
      (l : list A) :
  (forall a, p (f a) = false) -> filter p (map f l) = [].
Proof.
  intros H. induction l as [|a l IH]; cbn; [reflexivity|]. now rewrite H.
Qed.

Lemma filter_plugin_loading_none (p : Event -> bool)
      (cls : string -> string) (mk : string -> Plugin) (keys : list string) :
  (forall f a, p (Loginfo f a) = false) ->
  (forall x, p (PluginNew x) = false) ->
  filter p (flat_map (fun k => [Loginfo "loading %s class from %s plugin"
                                        [cls k; k];
                                PluginNew (mk k)]) keys) = [].
Proof.
  intros H1 H2. induction keys as [|k keys IH]; cbn; [reflexivity|].
  now rewrite H1, H2.
Qed.

Lemma robot_handles_app (l1 l2 : list Event) :
  robot_handles (l1 ++ l2) = robot_handles l1 ++ robot_handles l2.
Proof. apply flat_map_app. Qed.

Lemma robot_handles_none (l : list Event) :
  filter is_robot_load l = [] -> robot_handles l = [].
Proof.
  induction l as [|e l IH]; [reflexivity|]. cbn [filter].
  destruct e; cbn; try exact IH.
  destruct kw; cbn; [discriminate | exact IH].
Qed.

Lemma str_lookup_NoDup {V} (kvs : list (string * V)) :
  NoDup (map fst kvs) ->
  forall kv, In kv kvs -> str_lookup (fst kv) kvs = Some (snd kv).
Proof.
  induction kvs as [|[k v] kvs IH]; intros Hnd kv Hin; [destruct Hin|].
  cbn [map fst] in Hnd. inversion Hnd as [|? ? Hk Hnd']; subst.
  cbn [str_lookup]. destruct Hin as [<-|Hin].
  - cbn [fst snd]. now rewrite String.eqb_refl.
  - destruct (String.eqb_spec k (fst kv)) as [Heq|_]; [|now apply IH].
    exfalso. apply Hk. rewrite Heq. now apply in_map.
Qed.

(** ** Further properties of the start-up *)

(** X15.  When [__init__] completes, the robot handle it has stored is the
    one the engine returned for the only robot load of the start-up, and
    the rate and the pause flag are the parameters [~loop_rate] and
    [~pause_simulation] (80.0 and not paused when unset). *)
Theorem startup_stores_what_it_loaded (s : Sys W) :
  fst (__init__ s) = Ok tt ->
  robot_handles (new_events __init__ s) = [robot (self (snd (__init__ s)))] /\
  loop_rate (self (snd (__init__ s)))
  = param_value (params s) "~loop_rate" (PyFloat 80.0) /\
  pause_simulation (self (snd (__init__ s)))
  = truthy (param_value (params s) "~pause_simulation" (PyBool false)).
Proof.
  intros Hok.
  destruct (__init__cases s)
    as [(items & h0 & h & kw & euler & q & g & w1 & _ & _ & Hrun)
       |[Hr|Hr]]; [|congruence|congruence].
  cbv zeta in Hrun. unfold new_events. rewrite Hrun.
  cbn [snd self trace robot loop_rate pause_simulation].
  rewrite skipn_length_app. split; [|split; reflexivity].
  rewrite !robot_handles_app.
  rewrite (robot_handles_none (map _ _)) by (now apply filter_map_none).
  rewrite (robot_handles_none (flat_map _ _))
    by (now apply filter_plugin_loading_none).
  destruct (eq_None _), (negb _); reflexivity.
Qed.

(** X16.  When [__init__] completes with a plugin dictionary, the plugin
    list holds one object per entry of the dictionary, in the order of the
    dictionary, each of the class the entry names and each built with the
    robot handle and the joint table the object has stored; they were
    built in that order. *)
Theorem plugins_follow_the_configuration (s : Sys W)
        (items : list (string * string)) :
  fst (__init__ s) = Ok tt ->
  param_value (params s) "~plugins" (PyDict []) = PyDict items ->
  NoDup (map fst items) ->
  let o := self (snd (__init__ s)) in
  plugins o
  = map (fun kc => mkPlugin (fst kc) (snd kc) (robot o)
                            (joint_index_name_dic o)) items /\
  filter is_PluginNew (new_events __init__ s) = map PluginNew (plugins o).
Proof.
  intros Hok Hdic Hnd.
  destruct (__init__cases s)
    as [(items' & h0 & h & kw & euler & q & g & w1 & Hcase & _ & Hrun)
       |[Hr|Hr]]; [|congruence|congruence].
  cbv zeta in Hcase, Hrun.
  assert (items' = items) as ->.
  { destruct Hcase as [H|[H _]]; rewrite Hdic in H; congruence. }
  cbv zeta. unfold new_events. rewrite Hrun.
  cbn [snd self trace robot joint_index_name_dic plugins].
  rewrite skipn_length_app. split.
  - rewrite map_map. apply map_ext_in. intros kc Hkc.
    now rewrite (@str_lookup_NoDup _ items Hnd kc Hkc).
  - rewrite !filter_app.
    rewrite (filter_map_none is_PluginNew) by reflexivity.
    assert (G : forall (cls : string -> string) (mk : string -> Plugin) keys,
               filter is_PluginNew
                 (flat_map (fun k => [Loginfo "loading %s class from %s plugin"
                                              [cls k; k];
                                      PluginNew (mk k)]) keys)
               = map PluginNew (map mk keys)).
    { intros cls mk keys. induction keys as [|k keys IH]; cbn;
        [reflexivity | now rewrite IH]. }
    rewrite G. destruct (eq_None _), (negb _); cbn; now rewrite app_nil_r.
Qed.

(** X17.  When the parameter [~plugins] is not set, a start-up that
    completes has warned once, has built no plugin and has an empty plugin
    list. *)
Theorem no_plugins_is_a_warning (s : Sys W) :
  fst (__init__ s) = Ok tt ->
  str_lookup "~plugins" (params s) = None ->
  plugins (self (snd (__init__ s))) = [] /\
  filter is_Logwarn (new_events __init__ s)
  = [Logwarn "No plugins found, forgot to set param ~plugins?"] /\
  filter is_PluginNew (new_events __init__ s) = [].
Proof.
  intros Hok Hnone.
  destruct (__init__cases s)
    as [(items & h0 & h & kw & euler & q & g & w1 & Hcase & _ & Hrun)
       |[Hr|Hr]]; [|congruence|congruence].
  cbv zeta in Hcase, Hrun.
  assert (Hdic : param_value (params s) "~plugins" (PyDict []) = PyDict []).
  { unfold param_value. now rewrite Hnone. }
  assert (items = []) as ->.
  { destruct Hcase as [H|[H _]]; rewrite Hdic in H; congruence. }
  unfold new_events. rewrite Hrun. cbn [snd self trace plugins map].
  rewrite skipn_length_app, Hdic. cbn [truthy negb flat_map].
  split; [reflexivity|].
  rewrite !filter_app.
  rewrite (filter_map_none is_Logwarn) by reflexivity.
  rewrite (filter_map_none is_PluginNew) by reflexivity.
  destruct (eq_None _); split; reflexivity.
Qed.

(** X18.  During a start-up that completes, the engine is given these
    commands and no others, in this order: connect, with the graphical mode
    when [~pybullet_gui] is true or unset and the direct mode otherwise;
    set the search path; set gravity; load the plane; switch real-time
    simulation off; load the robot.  It is not stepped, reset or
    disconnected. *)
Theorem startup_engine_commands (s : Sys W) :
  fst (__init__ s) = Ok tt ->
  let mode := if truthy (param_value (params s) "~pybullet_gui" (PyBool true))
              then GUI else DIRECT in
  exists c g h0 path kw h,
    filter is_engine_command (new_events __init__ s)
    = [Connect mode c; SetAdditionalSearchPath;
       SetGravity (PyInt 0) (PyInt 0) g;
       LoadURDF (PyStr "plane.urdf") None h0;
       SetRealTimeSimulation 0;
       LoadURDF path (Some kw) h].
Proof.
  intros Hok.
  destruct (__init__cases s)
    as [(items & h0 & h & kw & euler & q & g & w1 & _ & _ & Hrun)
       |[Hr|Hr]]; [|congruence|congruence].
  cbv zeta in Hrun. unfold new_events. rewrite Hrun. cbn [snd trace].
  rewrite skipn_length_app. rewrite !filter_app.
  rewrite (filter_map_none is_engine_command) by reflexivity.
  rewrite (filter_plugin_loading_none is_engine_command) by reflexivity.
  do 6 eexists.
  destruct (eq_None _), (negb _); reflexivity.
Qed.

(** X19.  After a start-up that completes without plugins, building the
    joint table again gives the table the object has stored. *)
Theorem stored_table_is_reproducible (s : Sys W) :
  fst (__init__ s) = Ok tt ->
  plugins (self (snd (__init__ s))) = [] ->
  fst (get_all_revolute_joint_names (snd (__init__ s)))
  = Ok (joint_index_name_dic (self (snd (__init__ s)))).
Proof.
  intros Hok.
  destruct (__init__cases s)
    as [(items & h0 & h & kw & euler & q & g & w1 & _ & Hgood & Hrun)
       |[Hr|Hr]]; [|congruence|congruence].
  cbv zeta in Hrun. rewrite Hrun.
  cbn [snd self plugins joint_index_name_dic].
  intros Hps. rewrite Hps. cbn [fold_left].
  rewrite get_all_revolute_joint_names_ok_run; [reflexivity|].
  cbn [self world robot]. exact Hgood.
Qed.

Lemma main_unfold (fuel : nat) (s : Sys W) :
  main fuel s =
  match __init__ (mkSys (self s) (world s) (params s) (shutdown s)
                        (trace s ++ [InitNode "pybullet_ros"])) with
  | (Ok _, s1) => start_pybullet_ros_wrapper fuel s1
  | (Raise e, s1) => (Raise e, s1)
  end.
Proof. destruct s. reflexivity. Qed.

(** X20.  A node that was given no robot description and whose start-up
    completes never runs an iteration of the control cycle: [main] ends
    with the engine disconnected, once, and without a publish, a
    simulation step or a sleep. *)
Theorem node_without_robot_never_iterates (fuel : nat) (s : Sys W)
        (r : LoopExit) :
  param_value (params s) "~robot_urdf_path" PyNone = PyNone ->
  fst (main (S fuel) s) = Ok r ->
  r = Disconnected /\
  count_events is_Disconnect (new_events (main (S fuel)) s) = 1%nat /\
  count_events is_StepSimulation (new_events (main (S fuel)) s) = O /\
  count_events is_Publish (new_events (main (S fuel)) s) = O /\
  count_events is_RateSleep (new_events (main (S fuel)) s) = O.
Proof.
  intros Hpath. unfold new_events. rewrite main_unfold.
  match goal with
  | |- context [__init__ ?x] =>
    destruct (__init__cases x)
      as [(items & h0 & h & kw & euler & q & g & w1 & _ & _ & Hrun)
         |[Hr|Hr]];
      [| destruct (__init__ x) as [[u|e] s1]; cbn [fst] in Hr;
         [discriminate | cbn [fst]; discriminate] ..]
  end.
  cbv zeta in Hrun. cbn [self world params shutdown trace] in Hrun.
  rewrite Hrun. rewrite Hpath. cbn [eq_None].
  rewrite start_pybullet_ros_wrapper_exit by reflexivity.
  cbn [fst snd self world params shutdown trace].
  intros Hr. injection Hr as <-. split; [reflexivity|].
  repeat (rewrite <- ?app_assoc; cbn [app]).
  rewrite skipn_length_app.
  repeat first [rewrite count_events_app | rewrite count_events_cons].
  rewrite !count_events_map_none by reflexivity.
  unfold count_events.
  rewrite !filter_plugin_loading_none by reflexivity.
  destruct (negb _); repeat split; reflexivity.
Qed.


End Further.

(** ** The decoder on a few byte strings *)

(** "A", e-acute (2 bytes), the euro sign (3 bytes) and U+1F600 (4 bytes). *)
Example decode_utf8_mixed :
  decode_utf8 [x41; xc3; xa9; xe2; x82; xac; xf0; x9f; x98; x80]%byte
  = Some [0x41; 0xE9; 0x20AC; 0x1F600].
Proof. vm_compute. reflexivity. Qed.

(** Rejected: an overlong "/", a surrogate, a value above U+10FFFF, a lone
    continuation byte and a sequence cut short. *)
Example decode_utf8_rejects :
  decode_utf8 [xc0; xaf]%byte = None /\
  decode_utf8 [xed; xa0; x80]%byte = None /\
  decode_utf8 [xf4; x90; x80; x80]%byte = None /\
  decode_utf8 [x80]%byte = None /\
  decode_utf8 [xe2; x82]%byte = None.
Proof. vm_compute. repeat split; reflexivity. Qed.

(** ** The controller on the small engine *)

Import Mock.

(** The table of the four-joint arm: joints 0 and 2. *)
Example arm_joint_table :
  fst (get_all_revolute_joint_names running_node)
  = Ok [(0, joint1); (2, e1)].
Proof. vm_compute. reflexivity. Qed.

(** A name that is not UTF-8 aborts the start-up. *)
Example garbled_name_aborts_startup :
  fst (__init__ (power_on launch_file (fresh garbled [])))
  = Raise UnicodeDecodeError.
Proof. vm_compute. reflexivity. Qed.

(** A pause request, two iterations, an unpause request, two iterations: the
    first two iterations publish and step, the last two only sleep. *)
Example pause_scenario_on_the_arm :
  filter (fun e => is_Publish e || is_StepSimulation e
                   || match e with RateSleep => true | _ => false end)
         (new_events
            (run_scenario [Incoming pause_physics; Iteration; Iteration;
                           Incoming unpause_physics; Iteration; Iteration])
            running_node)
  = [Publish (mkJointState (mkRosTime 0 0)
                           [joint1; e1]
                           [0.5; -1]%float [0.25; 0.125]%float [1.5; 0]%float);
     StepSimulation; RateSleep;
     Publish (mkJointState (mkRosTime 1 0)
                           [joint1; e1]
                           [0.75; -0.875]%float [0.25; 0.125]%float [1.5; 0]%float);
     StepSimulation; RateSleep;
     RateSleep; RateSleep].
Proof. vm_compute. reflexivity. Qed.

(** Without a robot description the node runs its whole start-up, the call
    that loads the robot included, and only then leaves the control cycle at
    its first test of the shutdown flag. *)
Example no_robot_node_runs_startup :
  fst (main 3 no_robot_node) = Ok Disconnected /\
  robot_handles (trace (snd (main 3 no_robot_node))) = [1] /\
  count_events is_StepSimulation (trace (snd (main 3 no_robot_node))) = O.
Proof. vm_compute. repeat split; reflexivity. Qed.

(** C2, on the node that starts paused. *)
Lemma paused_iteration_only_sleeps_witness :
  pause_simulation (self paused_node) = true /\
  new_events loop_body paused_node = [RateSleep].
Proof.
  split; [reflexivity|].
  destruct (paused_iteration_only_sleeps paused_node) as [_ [Hev _]];
    [reflexivity | exact Hev].
Defined.


(** C10, on the node whose robot has a single prismatic joint. *)
Lemma empty_table_still_publishes_witness :
  pause_simulation (self cart_node) = false /\
  joint_index_name_dic (self cart_node) = [] /\
  filter is_Publish (new_events loop_body cart_node)
  = [Publish (mkJointState (mkRosTime 0 0) [] [] [] [])].
Proof.
  split; [reflexivity|]. split; [reflexivity|].
  destruct (empty_table_still_publishes cart_node) as [_ Hpub];
    [reflexivity | reflexivity | exact Hpub].
Defined.

(** C8, on the node that was given no robot description. *)
Lemma missing_urdf_path_still_loads_witness :
  param_value (params no_robot_node) "~robot_urdf_path" PyNone = PyNone /\
  exists euler q gravity h0 kw h,
    fst (init_pybullet_robot no_robot_node) = Ok h /\
    shutdown (snd (init_pybullet_robot no_robot_node)) = true /\
    new_events init_pybullet_robot no_robot_node =
    [SignalShutdown "mandatory param robot_urdf_path not set, will exit now";
     GetQuaternionFromEuler euler q;
     SetGravity (PyInt 0) (PyInt 0) gravity;
     LoadURDF (PyStr "plane.urdf") None h0;
     SetRealTimeSimulation 0;
     LoadURDF PyNone (Some kw) h].
Proof.
  split; [reflexivity|].
  apply (missing_urdf_path_still_loads no_robot_node). reflexivity.
Defined.


(** C4 fails on a paused node: the flag is up before the reset and down
    after it. *)
Lemma reset_unpauses_a_paused_node :
  pause_simulation (self (snd (handle_reset_simulation paused_node)))
  <> pause_simulation (self paused_node).
Proof. vm_compute. discriminate. Qed.

(** C9 fails at start-up: in the trace of [__init__] the robot is not loaded
    before gravity is set, nor before the ground plane is loaded. *)
Lemma robot_is_not_loaded_first_at_startup :
  let tr := new_events __init__ (power_on launch_file (fresh arm arm_states))
  in
  ~ (occurs_before is_robot_load is_SetGravity tr /\
     occurs_before is_robot_load is_plane_load tr).
Proof.
  cbv zeta. intros [[i [Hi Hbefore]] _].
  vm_compute in Hi. injection Hi as <-.
  specialize (Hbefore 10%nat). vm_compute in Hbefore.
  specialize (Hbefore eq_refl). lia.
Qed.

(** ** The further properties on the small engine *)

(** X1, on the running node: three iterations, three of everything. *)
Lemma control_cycle_runs_until_shutdown_witness :
  shutdown running_node = false /\
  fst (start_pybullet_ros_wrapper 3 running_node) = Ok StillRunning /\
  count_events is_StepSimulation
               (new_events (start_pybullet_ros_wrapper 3) running_node)
  = 3%nat.
Proof.
  split; [reflexivity|].
  destruct (control_cycle_runs_until_shutdown 3 running_node)
    as [Hok [_ [_ [_ [Hstep _]]]]]; [reflexivity|].
  split; [exact Hok | exact Hstep].
Defined.

(** X2, on the node whose shutdown was requested. *)
Lemma shut_down_node_only_disconnects_witness :
  shutdown stopped_node = true /\
  new_events (start_pybullet_ros_wrapper 1) stopped_node = [Disconnect].
Proof.
  split; [reflexivity|].
  destruct (shut_down_node_only_disconnects 0 stopped_node)
    as [_ [Hev _]]; [reflexivity | exact Hev].
Defined.

(** X5, on the running node: two joints in the table, four lists of two. *)
Lemma published_lists_are_parallel_witness :
  let msg := mkJointState (mkRosTime 0 0) [joint1; e1]
                          [0.5; -1]%float [0.25; 0.125]%float
                          [1.5; 0]%float in
  In (Publish msg) (new_events loop_body running_node) /\
  List.length (name msg) = 2%nat /\
  List.length (effort msg) = 2%nat.
Proof.
  cbv zeta.
  assert (Hin : In (Publish (mkJointState (mkRosTime 0 0) [joint1; e1]
                                          [0.5; -1]%float [0.25; 0.125]%float
                                          [1.5; 0]%float))
                   (new_events loop_body running_node)).
  { vm_compute. do 3 right. left. reflexivity. }
  split; [exact Hin|].
  destruct (published_lists_are_parallel running_node _ Hin)
    as [Hn [_ [_ He]]].
  split; [exact Hn | exact He].
Defined.

(** X7, on the running node, against its own start-up. *)
Lemma reset_repeats_the_world_setup_witness :
  params arm_switched_on = params running_node /\
  map erase_handle (new_events handle_reset_simulation running_node)
  = [Loginfo "reseting simulation now" []; ResetSimulation]
      ++ map erase_handle (new_events init_pybullet_robot arm_switched_on).
Proof.
  split; [reflexivity|].
  apply (reset_repeats_the_world_setup running_node arm_switched_on).
  reflexivity.
Defined.

(** X8, on the load of the arm: flags 8. *)
Lemma self_collision_is_always_enabled_witness :
  let kw := mkURDFArgs [PyFloat 0; PyFloat 0; PyFloat 1]
                       (0, 0, 0, 1)%float (PyBool false) 8 in
  In (LoadURDF (PyStr "arm.urdf") (Some kw) 1)
     (new_events init_pybullet_robot arm_switched_on) /\
  Z.land (flags kw) URDF_USE_SELF_COLLISION = URDF_USE_SELF_COLLISION.
Proof.
  cbv zeta.
  assert (Hin : In (LoadURDF (PyStr "arm.urdf")
                             (Some (mkURDFArgs [PyFloat 0; PyFloat 0; PyFloat 1]
                                               (0, 0, 0, 1)%float
                                               (PyBool false) 8)) 1)
                   (new_events init_pybullet_robot arm_switched_on)).
  { vm_compute. do 4 right. left. reflexivity. }
  split; [exact Hin|].
  exact (proj1 (self_collision_is_always_enabled arm_switched_on _ _ _ Hin)).
Defined.

(** X9, on the arm. *)
Lemma robot_path_set_means_no_shutdown_witness :
  param_value (params arm_switched_on) "~robot_urdf_path" PyNone
  = PyStr "arm.urdf" /\
  fst (init_pybullet_robot arm_switched_on) = Ok 1 /\
  count_events is_SignalShutdown
               (new_events init_pybullet_robot arm_switched_on) = O /\
  shutdown (snd (init_pybullet_robot arm_switched_on)) = false.
Proof.
  split; [reflexivity|].
  split; [reflexivity|].
  destruct (@robot_path_set_means_no_shutdown _ _ arm_switched_on
              "arm.urdf" 1)
    as [Hc [Hs _]]; [reflexivity | reflexivity |].
  split; [exact Hc | exact Hs].
Defined.

(** X10, on the arm, whose launch file sets none of these parameters. *)
Lemma world_setup_defaults_witness :
  str_lookup "~gravity" (params arm_switched_on) = None /\
  exists pre h0 h,
    new_events init_pybullet_robot arm_switched_on =
    pre ++
    [GetQuaternionFromEuler [PyFloat 0; PyFloat 0; PyFloat 0]
                            (0, 0, 0, 1)%float;
     SetGravity (PyInt 0) (PyInt 0) (PyFloat (-9.81));
     LoadURDF (PyStr "plane.urdf") None h0;
     SetRealTimeSimulation 0;
     LoadURDF (PyStr "arm.urdf")
              (Some (mkURDFArgs [PyFloat 0; PyFloat 0; PyFloat 1]
                                (0, 0, 0, 1)%float (PyBool false) 8))
              h].
Proof.
  split; [reflexivity|].
  exact (world_setup_defaults arm_switched_on eq_refl eq_refl eq_refl
                              eq_refl eq_refl eq_refl eq_refl).
Defined.

(** X11, on the body without joints. *)
Lemma robot_without_joints_gives_empty_table_witness :
  pb_getNumJoints (robot (self brick_node)) (world brick_node) <= 0 /\
  fst (get_all_revolute_joint_names brick_node) = Ok [].
Proof.
  split; [vm_compute; discriminate|].
  rewrite (robot_without_joints_gives_empty_table brick_node);
    [reflexivity | vm_compute; discriminate].
Defined.

(** X12, on the running node: the count and the four descriptions. *)
Lemma joint_table_queries_witness :
  fst (get_all_revolute_joint_names running_node)
  = Ok [(0, joint1); (2, e1)] /\
  List.length (new_events get_all_revolute_joint_names running_node) = 5%nat /\
  world (snd (get_all_revolute_joint_names running_node))
  = world running_node.
Proof.
  assert (Hok : fst (get_all_revolute_joint_names running_node)
                = Ok [(0, joint1); (2, e1)]) by (vm_compute; reflexivity).
  split; [exact Hok|].
  destruct (@joint_table_queries _ _ running_node _ Hok)
    as [Hev [_ [Hw _]]].
  split; [rewrite Hev; reflexivity | exact Hw].
Defined.

(** X13, on the robot whose second joint has a garbled name. *)
Lemma undecodable_name_aborts_at_that_joint_witness :
  decode_utf8 (jointName (pb_getJointInfo (robot (self half_garbled_node)) 1
                                          (world half_garbled_node))) = None /\
  fst (get_all_revolute_joint_names half_garbled_node)
  = Raise UnicodeDecodeError /\
  List.length (new_events get_all_revolute_joint_names half_garbled_node)
  = 3%nat.
Proof.
  split; [reflexivity|].
  destruct (@undecodable_name_aborts_at_that_joint _ _ half_garbled_node 1)
    as [Hr [Hev _]].
  - vm_compute. split; [discriminate | reflexivity].
  - reflexivity.
  - reflexivity.
  - intros i Hi _. assert (i = 0) as -> by lia. vm_compute. discriminate.
  - split; [exact Hr | rewrite Hev; reflexivity].
Defined.

(** X14, on the gripper. *)
Lemma ascii_names_always_decode_witness :
  (forall i, 0 <= i < 2 ->
             Forall (fun b => byte_val b < 0x80)
                    (jointName (pb_getJointInfo (robot (self gripper_node)) i
                                                (world gripper_node)))) /\
  exists d, fst (get_all_revolute_joint_names gripper_node) = Ok d.
Proof.
  assert (Hascii :
            forall i, 0 <= i < 2 ->
                      Forall (fun b => byte_val b < 0x80)
                             (jointName
                                (pb_getJointInfo (robot (self gripper_node)) i
                                                 (world gripper_node)))).
  { intros i Hi. assert (i = 0 \/ i = 1) as [-> | ->] by lia;
      vm_compute; repeat (constructor; [reflexivity|]); constructor. }
  split; [exact Hascii|].
  destruct (ascii_names_always_decode gripper_node) as [d [Hd _]].
  - intros i Hi _. apply Hascii. exact Hi.
  - exists d. exact Hd.
Defined.

(** X15, on the start-up of the arm: handle 1, 80 Hz, not paused. *)
Lemma startup_stores_what_it_loaded_witness :
  fst (__init__ arm_switched_on) = Ok tt /\
  robot_handles (new_events __init__ arm_switched_on) = [1] /\
  robot (self (snd (__init__ arm_switched_on))) = 1 /\
  loop_rate (self (snd (__init__ arm_switched_on))) = PyFloat 80.
Proof.
  assert (Hok : fst (__init__ arm_switched_on) = Ok tt)
    by (vm_compute; reflexivity).
  split; [exact Hok|].
  destruct (startup_stores_what_it_loaded arm_switched_on Hok)
    as [Hh [Hr _]].
  split; [rewrite Hh; reflexivity|]. split; [reflexivity | exact Hr].
Defined.

(** X16, on the start-up of the arm: the two plugins of the launch file. *)
Lemma plugins_follow_the_configuration_witness :
  fst (__init__ arm_switched_on) = Ok tt /\
  NoDup ["pybullet_ros.plugins.control"; "pybullet_ros.plugins.odometry"] /\
  map plugin_class (plugins (self (snd (__init__ arm_switched_on))))
  = ["Control"; "Odometry"].
Proof.
  assert (Hok : fst (__init__ arm_switched_on) = Ok tt)
    by (vm_compute; reflexivity).
  assert (Hnd : NoDup ["pybullet_ros.plugins.control";
                       "pybullet_ros.plugins.odometry"]).
  { constructor; [|constructor; [|constructor]]; cbn; intuition discriminate. }
  split; [exact Hok|]. split; [exact Hnd|].
  destruct (@plugins_follow_the_configuration _ _ arm_switched_on
              [("pybullet_ros.plugins.control", "Control");
               ("pybullet_ros.plugins.odometry", "Odometry")]
              Hok eq_refl Hnd) as [Hps _].
  rewrite Hps. reflexivity.
Defined.

(** X17, on the launch file that names the robot only. *)
Lemma no_plugins_is_a_warning_witness :
  fst (__init__ bare_switched_on) = Ok tt /\
  str_lookup "~plugins" (params bare_switched_on) = None /\
  plugins (self (snd (__init__ bare_switched_on))) = [].
Proof.
  assert (Hok : fst (__init__ bare_switched_on) = Ok tt)
    by (vm_compute; reflexivity).
  split; [exact Hok|]. split; [reflexivity|].
  exact (proj1 (no_plugins_is_a_warning bare_switched_on Hok eq_refl)).
Defined.

(** X18, on the launch file that asks for the direct mode. *)
Lemma startup_engine_commands_witness :
  fst (__init__ headless_switched_on) = Ok tt /\
  exists c g h0 path kw h,
    filter is_engine_command (new_events __init__ headless_switched_on)
    = [Connect DIRECT c; SetAdditionalSearchPath;
       SetGravity (PyInt 0) (PyInt 0) g;
       LoadURDF (PyStr "plane.urdf") None h0;
       SetRealTimeSimulation 0;
       LoadURDF path (Some kw) h].
Proof.
  assert (Hok : fst (__init__ headless_switched_on) = Ok tt)
    by (vm_compute; reflexivity).
  split; [exact Hok|].
  exact (startup_engine_commands headless_switched_on Hok).
Defined.

(** X19, on the node without plugins. *)
Lemma stored_table_is_reproducible_witness :
  fst (__init__ bare_switched_on) = Ok tt /\
  plugins (self (snd (__init__ bare_switched_on))) = [] /\
  fst (get_all_revolute_joint_names bare_node) = Ok [(0, joint1); (2, e1)].
Proof.
  assert (Hok : fst (__init__ bare_switched_on) = Ok tt)
    by (vm_compute; reflexivity).
  split; [exact Hok|]. split; [reflexivity|].
  change bare_node with (snd (__init__ bare_switched_on)).
  rewrite (stored_table_is_reproducible bare_switched_on Hok eq_refl).
  reflexivity.
Defined.

(** X20, on the node that was given no robot description. *)
Lemma node_without_robot_never_iterates_witness :
  param_value (params no_robot_node) "~robot_urdf_path" PyNone = PyNone /\
  fst (main 3 no_robot_node) = Ok Disconnected /\
  count_events is_StepSimulation (new_events (main 3) no_robot_node) = O.
Proof.
  split; [reflexivity|].
  assert (Hok : fst (main 3 no_robot_node) = Ok Disconnected)
    by (vm_compute; reflexivity).
  split; [exact Hok|].
  destruct (@node_without_robot_never_iterates _ _ 2 no_robot_node _
              eq_refl Hok) as [_ [_ [Hstep _]]].
  exact Hstep.
Defined.


(** X3, on the running node: a reset between two iterations. *)
Lemma scenario_keeps_configuration_witness :
  let sc := [Iteration; Incoming reset_simulation; Iteration] in
  fst (run_scenario sc running_node) = Ok tt /\
  configuration (self (snd (run_scenario sc running_node)))
  = configuration (self running_node).
Proof.
  cbv zeta.
  assert (Hok : fst (run_scenario
                       [Iteration; Incoming reset_simulation; Iteration]
                       running_node) = Ok tt) by (vm_compute; reflexivity).
  split; [exact Hok|].
  exact (proj1 (scenario_keeps_configuration
                  [Iteration; Incoming reset_simulation; Iteration]
                  running_node Hok)).
Defined.

(** X4, on the paused node: an unpause request after a pause request and
    an iteration. *)
Lemma last_request_decides_the_flag_witness :
  let sc := [Incoming pause_physics; Iteration] in
  fst (run_scenario (sc ++ [Incoming unpause_physics]) paused_node) = Ok tt /\
  pause_simulation
    (self (snd (run_scenario (sc ++ [Incoming unpause_physics]) paused_node)))
  = true.
Proof.
  cbv zeta.
  assert (Hok : fst (run_scenario
                       ([Incoming pause_physics; Iteration]
                          ++ [Incoming unpause_physics]) paused_node) = Ok tt)
    by (vm_compute; reflexivity).
  split; [exact Hok|].
  exact (last_request_decides_the_flag [Incoming pause_physics; Iteration]
                                       unpause_physics paused_node Hok).
Defined.

(** X6, on the paused node. *)
Lemma iteration_after_reset_uses_old_handle_and_table_witness :
  fst (run_scenario [Incoming reset_simulation; Iteration] paused_node)
  = Ok tt /\
  count_events is_StepSimulation
    (new_events (run_scenario [Incoming reset_simulation; Iteration])
                paused_node) = 1%nat.
Proof.
  assert (Hok : fst (run_scenario [Incoming reset_simulation; Iteration]
                                  paused_node) = Ok tt)
    by (vm_compute; reflexivity).
  split; [exact Hok|].
  destruct (iteration_after_reset_uses_old_handle_and_table paused_node Hok)
    as [_ [_ Hstep]].
  exact Hstep.
Defined.
